(** * buildPlaneGeometry: a shallow embedding and its verification

    The development follows [src/geometryBuilders/buildPlaneGeometry.js].

    - JavaScript numbers are IEEE 754 binary64 values.  They are modelled by
      [spec_float] with precision 53 and maximal exponent 1024, and the
      elements of a [Float32Array] by [spec_float] rounded to precision 24
      and maximal exponent 128.
    - Loop counters, array lengths, offsets and vertex indices are integers.
      They are modelled by [Z]: binary64 arithmetic is exact on integers of
      magnitude at most 2^53, and the length check of the typed array
      constructor rejects everything beyond that range before any of these
      values is used.
    - [console.error] appends a line to a log and a typed array constructor
      that cannot create its array throws; both effects are threaded by the
      monad [M].
    - Whether the buffer of a typed array can be allocated is up to the
      host.  The host is a parameter of [buildPlaneGeometry]: what is proved
      for every host holds on the machine the code runs on. *)

From Stdlib Require Import ZArith Lia.
From Stdlib.Floats Require Import SpecFloat.
From stdpp Require Import base list list_numbers strings.

Local Open Scope Z_scope.

(** ** Numbers *)

Module Number.

Definition number : Type := spec_float.

Definition prec : Z := 53.
Definition emax : Z := 1024.

Definition valid (x : number) : Prop := valid_binary prec emax x = true.

Definition add : number → number → number := SFadd prec emax.
Definition sub : number → number → number := SFsub prec emax.
Definition mul : number → number → number := SFmul prec emax.
Definition div : number → number → number := SFdiv prec emax.
Definition neg : number → number := SFopp.
Definition abs : number → number := SFabs.
Definition ltb : number → number → bool := SFltb.

(** The number denoted by an integer literal, and the conversion of an
    integer-valued intermediate result (round to nearest, ties to even). *)
Definition ofZ (z : Z) : number := binary_normalize prec emax z 0 false.

Definition NaN : number := S754_nan.
Definition Infinity : number := S754_infinity false.

(** ToBoolean: [+0], [-0] and [NaN] are falsy, every other number is truthy. *)
Definition truthy (x : number) : bool :=
  match x with
  | S754_zero _ | S754_nan => false
  | _ => true
  end.

(** [v || d] for a property [v] that may be absent ([undefined] is falsy). *)
Definition or_default (v : option number) (d : number) : number :=
  match v with
  | Some x => if truthy x then x else d
  | None => d
  end.

(** Integer-valued numbers, as [Math.floor] returns them. *)
Inductive integral : Type :=
| Int (z : Z)
| IntInfinity (negative : bool)
| IntNaN.

(** [Math.floor]: the largest integer not above the argument.  For a finite
    [(-1)^s * m * 2^e] this is the shift of the signed mantissa by [e]
    ([Z.shiftl] by a negative amount is the flooring right shift). *)
Definition Math_floor (x : number) : integral :=
  match x with
  | S754_zero _ => Int 0
  | S754_infinity s => IntInfinity s
  | S754_nan => IntNaN
  | S754_finite s m e => Int (Z.shiftl (cond_Zopp s (Z.pos m)) e)
  end.

(** [v || d] on the result of [Math.floor]: [0] and [NaN] are falsy. *)
Definition integral_or (v : integral) (d : Z) : integral :=
  match v with
  | Int 0 | IntNaN => Int d
  | _ => v
  end.

(** Elements of a [Float32Array]. *)
Definition float32 : Type := spec_float.

(** The conversion applied by a store into a [Float32Array]. *)
Definition fround (x : number) : float32 :=
  match x with
  | S754_finite s m e => binary_round 24 128 s m e
  | _ => x
  end.

Definition f32_zero : float32 := S754_zero false.

End Number.
Import Number.

Declare Scope number_scope.
Delimit Scope number_scope with num.
Infix "+" := add : number_scope.
Infix "-" := sub : number_scope.
Infix "*" := mul : number_scope.
Infix "/" := div : number_scope.
Infix "<?" := ltb : number_scope.
Notation "- x" := (neg x) : number_scope.
Notation "v '||' d" := (or_default v d) (at level 50, left associativity) : number_scope.

(** ** Effects: the console and exceptions *)

Inductive Exn : Type :=
| RangeError.

Inductive Outcome (A : Type) : Type :=
| Return (a : A)
| Throw (e : Exn).
Arguments Return {A} a.
Arguments Throw {A} e.

(** A computation yields the lines it wrote to the console, in order, and
    either a value or the exception that ended it. *)
Definition M (A : Type) : Type := list string * Outcome A.

Global Instance M_ret : MRet M := λ A a, ([], Return a).

Global Instance M_bind : MBind M := λ A B f m,
  match m with
  | (out, Return a) => let '(out', r) := f a in (out ++ out', r)
  | (out, Throw e) => (out, Throw e)
  end.

Definition console_error (line : string) : M unit := ([line], Return tt).

Definition throw {A : Type} (e : Exn) : M A := ([], Throw e).

Definition console {A : Type} (m : M A) : list string := fst m.
Definition outcome {A : Type} (m : M A) : Outcome A := snd m.

(** ** Typed arrays *)

(** The largest length [ToIndex] accepts, and the largest size of a data
    block in bytes. *)
Definition MAX_SAFE_INTEGER : Z := 2 ^ 53 - 1.

(** [len] is a valid length of a typed array with elements of [elementSize]
    bytes: [len] is a valid index and the byte length is the size of a data
    block.  The constructor throws a [RangeError] for every other length. *)
Definition validLength (elementSize len : Z) : Prop :=
  0 ≤ len ≤ MAX_SAFE_INTEGER ∧ elementSize * len ≤ MAX_SAFE_INTEGER.

(** The host allocates the data blocks.  It may refuse one, for lack of
    memory or by a limit of its own, and the constructor then throws a
    [RangeError] as well.  [host k bytes] tells whether the host creates the
    data block, of [bytes] bytes, of the [k]-th typed array that a call
    constructs (counted from 0).  Where two calls are compared they run on
    the same host, which answers both alike. *)
Definition Host : Type := nat → Z → bool.

(** The constructor creates an array of [len] elements of [elementSize]
    bytes: the length is valid and the host grants the data block. *)
Definition creates (grant : Z → bool) (elementSize len : Z) : Prop :=
  validLength elementSize len ∧ grant (elementSize * len) = true.

Global Instance validLength_dec elementSize len : Decision (validLength elementSize len).
Proof. unfold validLength. apply _. Defined.

Global Instance creates_dec grant elementSize len : Decision (creates grant elementSize len).
Proof. unfold creates. apply _. Defined.

(** [new Float32Array(len)]: zero-filled, or a [RangeError] when [len] is not
    a valid length or the host does not grant the data block. *)
Definition new_Float32Array (grant : Z → bool) (len : Z) : M (list float32) :=
  if bool_decide (creates grant 4 len)
  then mret (replicate (Z.to_nat len) f32_zero)
  else throw RangeError.

(** [a[i] = v] on a [Float32Array]: the value is rounded to single precision;
    a store outside the array is ignored. *)
Definition f32_set (a : list float32) (i : Z) (v : number) : list float32 :=
  if bool_decide (0 ≤ i) then <[Z.to_nat i := fround v]> a else a.

Inductive IndexType : Type :=
| Uint16
| Uint32.

Definition bits (t : IndexType) : Z :=
  match t with
  | Uint16 => 16
  | Uint32 => 32
  end.

Definition elementSize (t : IndexType) : Z := bits t / 8.

(** An [Uint16Array] or [Uint32Array]: the element type and the elements. *)
Record IndexArray : Type := {
  elemType : IndexType;
  elems : list Z
}.

(** The conversion applied by a store into an unsigned integer array. *)
Definition wrap (t : IndexType) (v : Z) : Z := v mod 2 ^ bits t.

Definition new_IndexArray (grant : Z → bool) (t : IndexType) (len : Z) : M IndexArray :=
  if bool_decide (creates grant (elementSize t) len)
  then mret {| elemType := t; elems := replicate (Z.to_nat len) 0 |}
  else throw RangeError.

Definition index_set (a : IndexArray) (i : Z) (v : Z) : IndexArray :=
  {| elemType := elemType a;
     elems := if bool_decide (0 ≤ i)
              then <[Z.to_nat i := wrap (elemType a) v]> (elems a)
              else elems a |}.

(** ** Loops *)

(** [n] iterations of [body], the counter starting at [i] and incremented
    after each iteration. *)
Fixpoint for_loop {S : Type} (n : nat) (i : Z) (body : Z → S → S) (s : S) : S :=
  match n with
  | O => s
  | Datatypes.S n' => for_loop n' (i + 1) body (body i s)
  end.

(** [for (i = 0; i < bound; i++) body]. *)
Definition for_upto {S : Type} (bound : Z) (body : Z → S → S) (s : S) : S :=
  for_loop (Z.to_nat bound) 0 body s.

(** ** The configuration and the returned geometry *)

(** [cfg]: every property may be absent.  [center] is an array of numbers;
    reading past its end yields [undefined], which arithmetic and typed
    array stores convert to [NaN]. *)
Record Cfg : Type := {
  cfg_center : option (list number);
  cfg_xSize : option number;
  cfg_zSize : option number;
  cfg_xSegments : option number;
  cfg_zSegments : option number
}.

(** The default argument [{}]. *)
Definition emptyCfg : Cfg :=
  {| cfg_center := None; cfg_xSize := None; cfg_zSize := None;
     cfg_xSegments := None; cfg_zSegments := None |}.

Record Geometry : Type := {
  primitiveType : string;
  positions : list float32;
  normals : list float32;
  uv : list float32;
  indices : IndexArray
}.

(** [center ? center[i] : 0]. *)
Definition center_component (center : option (list number)) (i : nat) : number :=
  match center with
  | Some c => default NaN (c !! i)
  | None => ofZ 0
  end.

(** ** The two loop nests *)

Section Loops.

Variables centerX centerY centerZ : number.
Variables halfWidth halfHeight segmentWidth segmentHeight : number.
Variables planeX planeZ : Z.

Let planeX1 : Z := planeX + 1.
Let planeZ1 : Z := planeZ + 1.

(** The variables the vertex loops assign to. *)
Record VertexState : Type := {
  vs_positions : list float32;
  vs_normals : list float32;
  vs_uvs : list float32;
  vs_offset : Z;
  vs_offset2 : Z
}.

(** Body of the inner vertex loop (column [ix] of row [iz]). *)
Definition vertexBody (iz : Z) (z : number) (ix : Z) (st : VertexState) : VertexState :=
  let offset := vs_offset st in
  let offset2 := vs_offset2 st in
  let x := (ofZ ix * segmentWidth - halfWidth)%num in
  let positions := f32_set (vs_positions st) offset (x + centerX)%num in
  let positions := f32_set positions (offset + 1) centerY in
  let positions := f32_set positions (offset + 2) (- z + centerZ)%num in
  let normals := f32_set (vs_normals st) (offset + 2) (ofZ (-1)) in
  let uvs := f32_set (vs_uvs st) offset2 (ofZ ix / ofZ planeX)%num in
  let uvs := f32_set uvs (offset2 + 1) (ofZ (planeZ - iz) / ofZ planeZ)%num in
  {| vs_positions := positions; vs_normals := normals; vs_uvs := uvs;
     vs_offset := offset + 3; vs_offset2 := offset2 + 2 |}.

(** Body of the outer vertex loop (row [iz]). *)
Definition vertexRow (iz : Z) (st : VertexState) : VertexState :=
  let z := (ofZ iz * segmentHeight - halfHeight)%num in
  for_upto planeX1 (vertexBody iz z) st.

Definition vertexLoop (st : VertexState) : VertexState :=
  for_upto planeZ1 vertexRow st.

(** The variables the index loops assign to. *)
Record IndexState : Type := {
  is_indices : IndexArray;
  is_offset : Z
}.

(** Body of the inner index loop (cell [ix] of row [iz]). *)
Definition indexBody (iz ix : Z) (st : IndexState) : IndexState :=
  let offset := is_offset st in
  let a := ix + planeX1 * iz in
  let b := ix + planeX1 * (iz + 1) in
  let c := (ix + 1) + planeX1 * (iz + 1) in
  let d := (ix + 1) + planeX1 * iz in
  let indices := index_set (is_indices st) offset d in
  let indices := index_set indices (offset + 1) b in
  let indices := index_set indices (offset + 2) a in
  let indices := index_set indices (offset + 3) d in
  let indices := index_set indices (offset + 4) c in
  let indices := index_set indices (offset + 5) b in
  {| is_indices := indices; is_offset := offset + 6 |}.

Definition indexRow (iz : Z) (st : IndexState) : IndexState :=
  for_upto planeX (indexBody iz) st.

Definition indexLoop (st : IndexState) : IndexState :=
  for_upto planeZ indexRow st.

End Loops.

(** ** buildPlaneGeometry *)

Definition buildPlaneGeometry (host : Host) (arg : option Cfg) : M Geometry :=
  let cfg := default emptyCfg arg in

  let xSize := (cfg_xSize cfg || ofZ 1)%num in
  xSize ← (if (xSize <? ofZ 0)%num
           then console_error "negative xSize not allowed - will invert";;
                mret (xSize * ofZ (-1))%num
           else mret xSize);

  let zSize := (cfg_zSize cfg || ofZ 1)%num in
  zSize ← (if (zSize <? ofZ 0)%num
           then console_error "negative zSize not allowed - will invert";;
                mret (zSize * ofZ (-1))%num
           else mret zSize);

  let xSegments := (cfg_xSegments cfg || ofZ 1)%num in
  xSegments ← (if (xSegments <? ofZ 0)%num
               then console_error "negative xSegments not allowed - will invert";;
                    mret (xSegments * ofZ (-1))%num
               else mret xSegments);
  let xSegments := if (xSegments <? ofZ 1)%num then ofZ 1 else xSegments in

  let zSegments := (cfg_xSegments cfg || ofZ 1)%num in
  zSegments ← (if (zSegments <? ofZ 0)%num
               then console_error "negative zSegments not allowed - will invert";;
                    mret (zSegments * ofZ (-1))%num
               else mret zSegments);
  let zSegments := if (zSegments <? ofZ 1)%num then ofZ 1 else zSegments in

  let center := cfg_center cfg in
  let centerX := center_component center 0 in
  let centerY := center_component center 1 in
  let centerZ := center_component center 2 in

  let halfWidth := (xSize / ofZ 2)%num in
  let halfHeight := (zSize / ofZ 2)%num in

  match integral_or (Math_floor xSegments) 1, integral_or (Math_floor zSegments) 1 with
  | Int planeX, Int planeZ =>
    let planeX1 := planeX + 1 in
    let planeZ1 := planeZ + 1 in

    let segmentWidth := (xSize / ofZ planeX)%num in
    let segmentHeight := (zSize / ofZ planeZ)%num in

    positions ← new_Float32Array (host 0%nat) (planeX1 * planeZ1 * 3);
    normals ← new_Float32Array (host 1%nat) (planeX1 * planeZ1 * 3);
    uvs ← new_Float32Array (host 2%nat) (planeX1 * planeZ1 * 2);

    let vs :=
      vertexLoop centerX centerY centerZ halfWidth halfHeight
        segmentWidth segmentHeight planeX planeZ
        {| vs_positions := positions; vs_normals := normals; vs_uvs := uvs;
           vs_offset := 0; vs_offset2 := 0 |} in
    let positions := vs_positions vs in
    let normals := vs_normals vs in
    let uvs := vs_uvs vs in

    indices ← new_IndexArray (host 3%nat)
                (if Z.of_nat (length positions) / 3 >? 65535 then Uint32 else Uint16)
                (planeX * planeZ * 6);
    let ixs := indexLoop planeX planeZ {| is_indices := indices; is_offset := 0 |} in
    let indices := is_indices ixs in

    mret {| primitiveType := "triangles";
            positions := positions;
            normals := normals;
            uv := uvs;
            indices := indices |}
  | _, _ =>
    (* The floored segment count is an infinity: so is the array length
       [planeX1 * planeZ1 * 3], which [new Float32Array] rejects. *)
    throw RangeError
  end.

(** * Vocabulary of the verification *)

(** ** Numbers *)

(** Numbers that are not below zero, and [NaN]. *)
Definition nonnegative (x : number) : Prop :=
  match x with
  | S754_finite s _ _ | S754_infinity s => s = false
  | S754_zero _ | S754_nan => True
  end.

(** Numbers other than the infinities and [NaN]. *)
Definition finite (x : number) : Prop :=
  match x with
  | S754_finite _ _ _ | S754_zero _ => True
  | S754_infinity _ | S754_nan => False
  end.

(** Single precision constants. *)
Definition f32_one : float32 := S754_finite false 8388608 (-23).
Definition f32_minus_one : float32 := S754_finite true 8388608 (-23).
Definition f32_half : float32 := S754_finite false 8388608 (-24).
Definition f32_minus_half : float32 := S754_finite true 8388608 (-24).

(** ** Sequentially filled arrays *)

(** An array of [N] chunks of width [w] whose first [k] chunks hold
    [f 0], ..., [f (k-1)] and whose other elements still hold [z]. *)
Definition filled {A : Type} (w : nat) (f : Z → list A) (z : A) (N k : Z) : list A :=
  (seqZ 0 k ≫= f) ++ replicate (w * Z.to_nat (N - k)) z.

(** ** The grid in closed form *)

Section Grid.

Variables centerX centerY centerZ : number.
Variables halfWidth halfHeight segmentWidth segmentHeight : number.
Variables planeX planeZ : Z.

(** Vertex [k] of the grid, in row-major order, sits in column
    [k mod (planeX + 1)] of row [k / (planeX + 1)]. *)
Definition column (k : Z) : Z := k mod (planeX + 1).
Definition row (k : Z) : Z := k / (planeX + 1).

Definition positionAt (k : Z) : list float32 :=
  let x := (ofZ (column k) * segmentWidth - halfWidth)%num in
  let z := (ofZ (row k) * segmentHeight - halfHeight)%num in
  [fround (x + centerX)%num; fround centerY; fround (- z + centerZ)%num].

Definition normalAt (k : Z) : list float32 :=
  [f32_zero; f32_zero; fround (ofZ (-1))].

Definition uvAt (k : Z) : list float32 :=
  [fround (ofZ (column k) / ofZ planeX)%num;
   fround (ofZ (planeZ - row k) / ofZ planeZ)%num].

(** The corners of the cell in column [ix] of row [iz]. *)
Definition cornerA (ix iz : Z) : Z := ix + (planeX + 1) * iz.
Definition cornerB (ix iz : Z) : Z := ix + (planeX + 1) * (iz + 1).
Definition cornerC (ix iz : Z) : Z := (ix + 1) + (planeX + 1) * (iz + 1).
Definition cornerD (ix iz : Z) : Z := (ix + 1) + (planeX + 1) * iz.

(** The two triangles of a cell, as written. *)
Definition cellTriangles (ix iz : Z) : list Z :=
  [cornerD ix iz; cornerB ix iz; cornerA ix iz;
   cornerD ix iz; cornerC ix iz; cornerB ix iz].

(** Cell [k], in row-major order, sits in column [k mod planeX] of row
    [k / planeX]; its indices are stored through the element type [t]. *)
Definition cellAt (t : IndexType) (k : Z) : list Z :=
  wrap t <$> cellTriangles (k mod planeX) (k / planeX).

Definition vertexCount : Z := (planeX + 1) * (planeZ + 1).
Definition cellCount : Z := planeX * planeZ.

(** Invariant of the vertex loops: [k] vertices are written. *)
Definition vertexInv (k : Z) (st : VertexState) : Prop :=
  vs_positions st = filled 3 positionAt f32_zero vertexCount k ∧
  vs_normals st = filled 3 normalAt f32_zero vertexCount k ∧
  vs_uvs st = filled 2 uvAt f32_zero vertexCount k ∧
  vs_offset st = 3 * k ∧
  vs_offset2 st = 2 * k.

(** Invariant of the index loops: [k] cells are written. *)
Definition indexInv (t : IndexType) (k : Z) (st : IndexState) : Prop :=
  elems (is_indices st) = filled 6 (cellAt t) 0 cellCount k ∧
  elemType (is_indices st) = t ∧
  is_offset st = 6 * k.

End Grid.

(** ** The run in closed form *)

(** The computation [m] run after the lines [out] were written. *)
Definition after {A : Type} (out : list string) (m : M A) : M A :=
  (out ++ console m, outcome m).

(** The sanitised sizes and segment counts (lines 58 to 86 of the source). *)
Definition invert (x : number) : number :=
  if (x <? ofZ 0)%num then (x * ofZ (-1))%num else x.

Definition isNegative (v : option number) : bool := ((v || ofZ 1) <? ofZ 0)%num.

Definition sanitizedSize (v : option number) : number := invert (v || ofZ 1)%num.

Definition sanitizedSegments (v : option number) : number :=
  let s := invert (v || ofZ 1)%num in
  if (s <? ofZ 1)%num then ofZ 1 else s.

(** The floored segment count ([planeX], and [planeZ]). *)
Definition planeSegments (v : option number) : integral :=
  integral_or (Math_floor (sanitizedSegments v)) 1.

(** The lines written to the console. *)
Definition diagnostics (cfg : Cfg) : list string :=
  (if isNegative (cfg_xSize cfg)
   then ["negative xSize not allowed - will invert"%string] else []) ++
  (if isNegative (cfg_zSize cfg)
   then ["negative zSize not allowed - will invert"%string] else []) ++
  (if isNegative (cfg_xSegments cfg)
   then ["negative xSegments not allowed - will invert"%string] else []) ++
  (if isNegative (cfg_xSegments cfg)
   then ["negative zSegments not allowed - will invert"%string] else []).

(** The element type chosen for the indices of an [n] by [n] grid. *)
Definition indexType (n : Z) : IndexType :=
  if vertexCount n n >? 65535 then Uint32 else Uint16.

(** The four arrays of an [n] by [n] grid are created: the positions, the
    normals, the texture coordinates and the indices, in the order in which
    the call constructs them. *)
Definition allocated (host : Host) (n : Z) : Prop :=
  creates (host 0%nat) 4 ((n + 1) * (n + 1) * 3) ∧
  creates (host 1%nat) 4 ((n + 1) * (n + 1) * 3) ∧
  creates (host 2%nat) 4 ((n + 1) * (n + 1) * 2) ∧
  creates (host 3%nat) (elementSize (indexType n)) (n * n * 6).

Global Instance allocated_dec host n : Decision (allocated host n).
Proof. unfold allocated. apply _. Defined.


(** A host that creates the data blocks of at most [limit] bytes, and no
    other. *)
Definition hostWithRoom (limit : Z) : Host :=
  λ _ bytes, bool_decide (bytes ≤ limit).

(** The geometry of an [n] by [n] grid. *)
Definition planeGeometry (cfg : Cfg) (n : Z) : Geometry :=
  let xSize := sanitizedSize (cfg_xSize cfg) in
  let zSize := sanitizedSize (cfg_zSize cfg) in
  let center := cfg_center cfg in
  {| primitiveType := "triangles";
     positions :=
       seqZ 0 (vertexCount n n) ≫=
         positionAt (center_component center 0) (center_component center 1)
           (center_component center 2) (xSize / ofZ 2)%num (zSize / ofZ 2)%num
           (xSize / ofZ n)%num (zSize / ofZ n)%num n;
     normals := seqZ 0 (vertexCount n n) ≫= normalAt;
     uv := seqZ 0 (vertexCount n n) ≫= uvAt n n;
     indices :=
       {| elemType := indexType n;
          elems := seqZ 0 (cellCount n n) ≫= cellAt n (indexType n) |} |}.

(** ** Configurations, hosts and geometries used as examples *)

(** A host with room for data blocks of up to one mebibyte. *)
Definition smallHost : Host := hostWithRoom (2 ^ 20).

Definition with_xSize (v : option number) (cfg : Cfg) : Cfg :=
  {| cfg_center := cfg_center cfg; cfg_xSize := v; cfg_zSize := cfg_zSize cfg;
     cfg_xSegments := cfg_xSegments cfg; cfg_zSegments := cfg_zSegments cfg |}.

Definition with_zSize (v : option number) (cfg : Cfg) : Cfg :=
  {| cfg_center := cfg_center cfg; cfg_xSize := cfg_xSize cfg; cfg_zSize := v;
     cfg_xSegments := cfg_xSegments cfg; cfg_zSegments := cfg_zSegments cfg |}.

Definition with_xSegments (v : option number) (cfg : Cfg) : Cfg :=
  {| cfg_center := cfg_center cfg; cfg_xSize := cfg_xSize cfg; cfg_zSize := cfg_zSize cfg;
     cfg_xSegments := v; cfg_zSegments := cfg_zSegments cfg |}.

Definition with_zSegments (v : option number) (cfg : Cfg) : Cfg :=
  {| cfg_center := cfg_center cfg; cfg_xSize := cfg_xSize cfg; cfg_zSize := cfg_zSize cfg;
     cfg_xSegments := cfg_xSegments cfg; cfg_zSegments := v |}.

(** [{xSegments: x, zSegments: z}]. *)
Definition segmentsCfg (x z : Z) : Cfg :=
  with_xSegments (Some (ofZ x)) (with_zSegments (Some (ofZ z)) emptyCfg).

(** [{center: [1, 2], xSize: -2, zSize: 0, xSegments: 2.5, zSegments: 8}]. *)
Definition oddCfg : Cfg :=
  {| cfg_center := Some [ofZ 1; ofZ 2];
     cfg_xSize := Some (ofZ (-2));
     cfg_zSize := Some (ofZ 0);
     cfg_xSegments := Some (ofZ 5 / ofZ 2)%num;
     cfg_zSegments := Some (ofZ 8) |}.

(** The unit plane: 4 vertices and the triangles (1, 2, 0) and (1, 3, 2). *)
Definition unitPlane : Geometry :=
  {| primitiveType := "triangles";
     positions := [f32_minus_half; f32_zero; f32_half;
                   f32_half; f32_zero; f32_half;
                   f32_minus_half; f32_zero; f32_minus_half;
                   f32_half; f32_zero; f32_minus_half];
     normals := [f32_zero; f32_zero; f32_minus_one;
                 f32_zero; f32_zero; f32_minus_one;
                 f32_zero; f32_zero; f32_minus_one;
                 f32_zero; f32_zero; f32_minus_one];
     uv := [f32_zero; f32_one; f32_one; f32_one;
            f32_zero; f32_zero; f32_one; f32_zero];
     indices := {| elemType := Uint16; elems := [1; 2; 0; 1; 3; 2] |} |}.

(** ** Proof steps *)

(** Side conditions of [insert_chunk]: the offset is the length [L] of the
    chunks already written, and the store falls inside the next chunk. *)
Ltac chunk_side L := first [ rewrite L; lia | simpl; lia ].

(** A line is none of the lines of an explicit list. *)
Ltac not_among_lines :=
  let H := fresh in
  intros H; simpl in H;
  repeat (apply elem_of_cons in H as [H|H]; [congruence|]);
  by apply elem_of_nil in H.

(** * Verification *)

(** ** Numbers *)

Section NumberFacts.

Lemma ofZ_0 : ofZ 0 = S754_zero false.
Proof. reflexivity. Qed.

Lemma ofZ_1 : ofZ 1 = S754_finite false 4503599627370496 (-52).
Proof. reflexivity. Qed.

Lemma ofZ_minus_1 : ofZ (-1) = S754_finite true 4503599627370496 (-52).
Proof. reflexivity. Qed.

Lemma binary_round_aux_nonnegative mx ex lx :
  nonnegative (binary_round_aux prec emax false mx ex lx).
Proof.
  unfold binary_round_aux.
  destruct (shr_fexp prec emax mx ex lx) as [mrs e'].
  destruct (shr_fexp prec emax _ e' loc_Exact) as [mrs' e''].
  destruct (shr_m mrs'); [done | | done].
  by destruct (e'' <=? emax - prec).
Qed.

Lemma ltb_0_false_nonnegative x : (x <? ofZ 0)%num = false → nonnegative x.
Proof. rewrite ofZ_0. by destruct x as [[]|[]| |[] m e]. Qed.

Lemma ltb_0_true_negative x :
  (x <? ofZ 0)%num = true →
  x = S754_infinity true ∨ ∃ m e, x = S754_finite true m e.
Proof. rewrite ofZ_0. destruct x as [[]|[]| |[] m e]; try done; eauto. Qed.

Lemma mul_minus_1_nonnegative x :
  (x <? ofZ 0)%num = true → nonnegative (x * ofZ (-1))%num.
Proof.
  intros [->|(m & e & ->)]%ltb_0_true_negative; rewrite ofZ_minus_1; [done|].
  apply binary_round_aux_nonnegative.
Qed.

Lemma Math_floor_nonnegative x n :
  nonnegative x → Math_floor x = Int n → 0 ≤ n.
Proof.
  destruct x as [s|s| |s m e]; simpl; intros Hs [= <-]; [done|].
  subst s. simpl. by apply Z.shiftl_nonneg.
Qed.


Lemma fexp_canonical m e :
  canonical_mantissa prec emax m e = true →
  fexp prec emax (Z.pos (digits2_pos m) + e) - e = 0.
Proof. unfold canonical_mantissa. intros ->%Z.eqb_eq. lia. Qed.

(** Rounding leaves a number that is already representable unchanged. *)
Lemma binary_round_aux_valid s m e :
  bounded prec emax m e = true →
  binary_round_aux prec emax s (Z.pos m) e loc_Exact = S754_finite s m e.
Proof.
  unfold bounded. intros [Hc He]%andb_prop.
  unfold binary_round_aux, shr_fexp. simpl Zdigits2.
  rewrite (fexp_canonical m e Hc). simpl.
  rewrite (fexp_canonical m e Hc). simpl.
  by rewrite He.
Qed.

Lemma div_eucl_mul a b : 0 < b → Z.div_eucl (b * a) b = (a, 0).
Proof.
  intros Hb. destruct (Z.div_eucl (b * a) b) as [q r] eqn:E.
  assert (q = (b * a) / b) as -> by (unfold Z.div; by rewrite E).
  assert (r = (b * a) mod b) as -> by (unfold Z.modulo; by rewrite E).
  rewrite Z.mul_comm, Z.div_mul, Z.mod_mul by lia. done.
Qed.

(** A finite number divided by itself is exactly 1. *)
Lemma div_diag s m e : (S754_finite s m e / S754_finite s m e)%num = ofZ 1.
Proof.
  unfold div, SFdiv, SFdiv_core_binary. rewrite !Z.sub_diag.
  change (Z.min (fexp prec emax 0) 0) with (-53).
  change (0 - -53) with 53. cbv beta iota.
  rewrite Z.shiftl_mul_pow2 by lia. rewrite div_eucl_mul by lia.
  assert (new_location (Z.pos m) 0 = loc_Exact) as ->.
  { unfold new_location. by destruct (Z.even _). }
  by destruct s.
Qed.

Lemma digits2_pos_iter_xO m k :
  digits2_pos (Pos.iter xO m k) = (digits2_pos m + k)%positive.
Proof.
  induction k as [|k IH] using Pos.peano_ind.
  - simpl. lia.
  - rewrite Pos.iter_succ. simpl. rewrite IH. lia.
Qed.

Lemma digits2_pos_lower p : 2 ^ (Z.pos (digits2_pos p) - 1) ≤ Z.pos p.
Proof.
  induction p as [p IH|p IH|]; simpl digits2_pos; [| |done].
  all: rewrite Pos2Z.inj_succ.
  all: replace (Z.succ (Z.pos (digits2_pos p)) - 1)
         with (Z.succ (Z.pos (digits2_pos p) - 1)) by lia.
  all: rewrite Z.pow_succ_r by lia; lia.
Qed.

(** A positive integer below 2^53 is represented exactly. *)
Lemma ofZ_pos_finite n :
  0 < n < 2 ^ 53 → ∃ m e, ofZ n = S754_finite false m e.
Proof.
  intros Hn. destruct n as [|p|p]; [lia| |lia].
  assert (Z.pos (digits2_pos p) ≤ 53) as Hd.
  { destruct (decide (Z.pos (digits2_pos p) ≤ 53)) as [|Hgt]; [done|].
    pose proof (digits2_pos_lower p).
    pose proof (Z.pow_le_mono_r 2 53 (Z.pos (digits2_pos p) - 1)). lia. }
  unfold ofZ, binary_normalize, binary_round, shl_align.
  assert (fexp prec emax (Z.pos (digits2_pos p) + 0) = Z.pos (digits2_pos p) - 53)
    as -> by (unfold fexp, emin, prec, emax; lia).
  destruct (Z.pos (digits2_pos p) - 53 - 0) as [|k|k] eqn:Hk; [|lia|].
  - exists p, 0. apply binary_round_aux_valid.
    apply andb_true_intro. split; [|done]. apply Z.eqb_eq.
    unfold fexp, emin, prec, emax. lia.
  - exists (Pos.iter xO p k), (Z.pos (digits2_pos p) - 53).
    apply binary_round_aux_valid.
    apply andb_true_intro. split; [apply Z.eqb_eq|apply Z.leb_le].
    + rewrite digits2_pos_iter_xO. unfold fexp, emin, prec, emax. lia.
    + unfold prec, emax. lia.
Qed.

Lemma iter_pos_iter {A} (f : A → A) k x : SpecFloat.iter_pos f k x = Pos.iter f x k.
Proof.
  revert x. induction k as [k IH|k IH|]; intros x; simpl; [| |done].
  - by rewrite !IH, !Pos.iter_swap.
  - by rewrite !IH.
Qed.

Lemma shr_1_iter_xO m k :
  Pos.iter shr_1 {| shr_m := Z.pos (Pos.iter xO m k); shr_r := false; shr_s := false |} k =
    {| shr_m := Z.pos m; shr_r := false; shr_s := false |}.
Proof.
  induction k as [|k IH] using Pos.peano_ind; [done|].
  rewrite (Pos.iter_succ k _ xO), Pos.iter_succ, <-Pos.iter_swap. simpl. apply IH.
Qed.

(** Rounding undoes a left shift of the mantissa of a representable
    number. *)
Lemma binary_round_aux_shifted s m e k :
  bounded prec emax m e = true →
  binary_round_aux prec emax s (Z.pos (Pos.iter xO m k)) (e - Z.pos k) loc_Exact =
    S754_finite s m e.
Proof.
  intros Hb. pose proof Hb as [Hc He]%andb_prop.
  pose proof (fexp_canonical m e Hc) as Hf.
  unfold binary_round_aux. unfold shr_fexp at 1. simpl Zdigits2.
  rewrite digits2_pos_iter_xO.
  assert (fexp prec emax (Z.pos (digits2_pos m + k) + (e - Z.pos k)) - (e - Z.pos k)
          = Z.pos k) as ->.
  { replace (Z.pos (digits2_pos m + k) + (e - Z.pos k))
      with (Z.pos (digits2_pos m) + e) by lia. lia. }
  unfold shr at 1. simpl shr_record_of_loc.
  rewrite iter_pos_iter, shr_1_iter_xO.
  replace (e - Z.pos k + Z.pos k) with e by lia.
  unfold shr_fexp. simpl. rewrite Hf. simpl. by rewrite He.
Qed.

(** Multiplying a negative number by [-1] yields its absolute value. *)
Lemma mul_minus_1_abs x :
  valid x → (x <? ofZ 0)%num = true → (x * ofZ (-1))%num = abs x.
Proof.
  intros Hv [->|(m & e & ->)]%ltb_0_true_negative; rewrite ofZ_minus_1; [done|].
  unfold mul, SFmul. simpl xorb.
  rewrite Pos.mul_comm.
  change (4503599627370496 * m)%positive with (Pos.iter xO m 52).
  change (e + -52) with (e - 52).
  by apply binary_round_aux_shifted.
Qed.

End NumberFacts.

(** ** Loops and sequentially filled arrays *)

Section LoopFacts.

Context {S : Type}.
Implicit Types (body : Z → S → S) (P : Z → S → Prop).

Lemma for_loop_ind P body n i s :
  P i s →
  (∀ j s', i ≤ j < i + Z.of_nat n → P j s' → P (j + 1) (body j s')) →
  P (i + Z.of_nat n) (for_loop n i body s).
Proof.
  revert i s. induction n as [|n IH]; intros i s Hi Hstep; simpl for_loop.
  - by replace (i + Z.of_nat 0) with i by lia.
  - replace (i + Z.of_nat (Datatypes.S n)) with ((i + 1) + Z.of_nat n) by lia.
    apply IH.
    + apply Hstep; [lia | done].
    + intros j s' Hj. apply Hstep. lia.
Qed.

Lemma for_upto_ind P bound body s :
  0 ≤ bound →
  P 0 s →
  (∀ j s', 0 ≤ j < bound → P j s' → P (j + 1) (body j s')) →
  P bound (for_upto bound body s).
Proof.
  intros Hb H0 Hstep. unfold for_upto.
  replace bound with (0 + Z.of_nat (Z.to_nat bound)) at 1 by lia.
  apply for_loop_ind; [done|]. intros j s' Hj. apply Hstep. lia.
Qed.

Lemma for_upto_nonpos bound body s : bound ≤ 0 → for_upto bound body s = s.
Proof. intros Hb. unfold for_upto. by replace (Z.to_nat bound) with O by lia. Qed.

End LoopFacts.

Section Filled.

Context {A : Type}.
Implicit Types (f : Z → list A) (z : A) (w : nat).

Lemma length_chunks w f k :
  (∀ i, length (f i) = w) → length (seqZ 0 k ≫= f) = (w * Z.to_nat k)%nat.
Proof.
  intros Hw. destruct (decide (k ≤ 0)) as [Hk|Hk].
  { rewrite seqZ_nil by done. simpl. lia. }
  rewrite <-(Z2Nat.id k) at 1 by lia.
  induction (Z.to_nat k) as [|n IH]; [simpl; lia|].
  rewrite seqZ_S, bind_app, length_app, IH, bind_singleton, Hw. lia.
Qed.

Lemma lookup_chunks w f N k j :
  (∀ i, length (f i) = w) → 0 ≤ k < N → (j < w)%nat →
  (seqZ 0 N ≫= f) !! (w * Z.to_nat k + j)%nat = f k !! j.
Proof.
  intros Hw Hk Hj. rewrite <-(Z2Nat.id N) in * by lia.
  induction (Z.to_nat N) as [|n IH]; [lia|].
  rewrite seqZ_S, bind_app, bind_singleton.
  destruct (decide (k < Z.of_nat n)) as [Hlt|Hge].
  - rewrite lookup_app_l; [apply IH; lia|].
    rewrite (length_chunks w) by done. nia.
  - assert (k = Z.of_nat n) as -> by lia.
    rewrite lookup_app_r; rewrite (length_chunks w) by done; [|lia].
    simpl. f_equal. lia.
Qed.

Lemma take_drop_chunks w f N k :
  (∀ i, length (f i) = w) → 0 ≤ k < N →
  take w (drop (w * Z.to_nat k) (seqZ 0 N ≫= f)) = f k.
Proof.
  intros Hw Hk. replace N with (k + (N - k)) by lia.
  rewrite seqZ_app, (seqZ_cons (0 + k)), !bind_app, bind_cons by lia.
  rewrite drop_app_length' by (symmetry; by apply length_chunks).
  rewrite Z.add_0_l. by apply take_app_length'.
Qed.

Lemma filled_full w f z N : filled w f z N N = seqZ 0 N ≫= f.
Proof.
  unfold filled. replace (Z.to_nat (N - N)) with O by lia.
  rewrite Nat.mul_0_r. simpl. by rewrite app_nil_r.
Qed.

Lemma filled_empty w f z N : filled w f z N 0 = replicate (w * Z.to_nat N) z.
Proof. unfold filled. rewrite seqZ_nil by done. by rewrite Z.sub_0_r. Qed.

(** The chunk about to be written, made explicit. *)
Lemma filled_unfold w f z N k :
  0 ≤ k < N →
  filled w f z N k =
    (seqZ 0 k ≫= f) ++ replicate w z ++ replicate (w * Z.to_nat (N - (k + 1))) z.
Proof.
  intros Hk. unfold filled. f_equal. rewrite <-replicate_add. f_equal. nia.
Qed.

Lemma filled_fold w f z N k :
  0 ≤ k →
  (seqZ 0 k ≫= f) ++ f k ++ replicate (w * Z.to_nat (N - (k + 1))) z =
    filled w f z N (k + 1).
Proof.
  intros Hk. unfold filled.
  rewrite seqZ_app, bind_app, Z.add_0_l by lia.
  rewrite (seqZ_cons k 1), (seqZ_nil (Z.succ k)), bind_singleton by lia.
  by rewrite <-app_assoc.
Qed.

Lemma insert_chunk (pre mid post : list A) (i j : nat) x :
  i = (length pre + j)%nat → (j < length mid)%nat →
  <[i:=x]> (pre ++ mid ++ post) = pre ++ <[j:=x]> mid ++ post.
Proof. intros -> Hj. by rewrite insert_app_r, insert_app_l. Qed.

End Filled.

Lemma div_mod_row (width row col : Z) :
  0 ≤ col < width →
  (row * width + col) / width = row ∧ (row * width + col) mod width = col.
Proof.
  intros Hcol. split.
  - rewrite Z.div_add_l, Z.div_small by lia. lia.
  - rewrite Z.add_comm, Z.mod_add, Z.mod_small by lia. done.
Qed.

(** ** What the loop nests leave in the arrays *)

Section GridFacts.

Variables centerX centerY centerZ : number.
Variables halfWidth halfHeight segmentWidth segmentHeight : number.
Variables planeX planeZ : Z.

Hypothesis planeX_nonneg : 0 ≤ planeX.
Hypothesis planeZ_nonneg : 0 ≤ planeZ.

Local Abbreviation posAt :=
  (positionAt centerX centerY centerZ halfWidth halfHeight
     segmentWidth segmentHeight planeX).
Local Abbreviation texAt := (uvAt planeX planeZ).
Local Abbreviation cellsAt := (cellAt planeX).
Local Abbreviation vCount := (vertexCount planeX planeZ).
Local Abbreviation cCount := (cellCount planeX planeZ).
Local Abbreviation vInv :=
  (vertexInv centerX centerY centerZ halfWidth halfHeight
     segmentWidth segmentHeight planeX planeZ).
Local Abbreviation iInv := (indexInv planeX planeZ).

Lemma vertexBody_inv iz ix st :
  0 ≤ iz < planeZ + 1 → 0 ≤ ix < planeX + 1 →
  vInv (iz * (planeX + 1) + ix) st →
  vInv (iz * (planeX + 1) + (ix + 1))
    (vertexBody centerX centerY centerZ halfWidth segmentWidth planeX planeZ iz
       (ofZ iz * segmentHeight - halfHeight)%num ix st).
Proof.
  intros Hiz Hix (Hp & Hn & Hu & Ho & Ho2).
  set (k := iz * (planeX + 1) + ix) in *.
  assert (0 ≤ k < vCount) as Hk by (unfold vertexCount; nia).
  destruct (div_mod_row (planeX + 1) iz ix Hix) as [Hrow Hcol].
  fold k in Hrow, Hcol.
  replace (iz * (planeX + 1) + (ix + 1)) with (k + 1) by lia.
  unfold vertexBody, vertexInv, f32_set.
  cbn [vs_positions vs_normals vs_uvs vs_offset vs_offset2].
  rewrite Hp, Hn, Hu, Ho, Ho2.
  rewrite !bool_decide_eq_true_2 by lia.
  rewrite !(filled_unfold _ _ _ _ k) by done. simpl replicate.
  assert (length (seqZ 0 k ≫= posAt) = (3 * Z.to_nat k)%nat) as Lp
    by (by apply length_chunks).
  assert (length (seqZ 0 k ≫= normalAt) = (3 * Z.to_nat k)%nat) as Ln
    by (by apply length_chunks).
  assert (length (seqZ 0 k ≫= texAt) = (2 * Z.to_nat k)%nat) as Lu
    by (by apply length_chunks).
  repeat split; try lia.
  - rewrite (insert_chunk (seqZ 0 k ≫= posAt) _ _ _ 0) by (chunk_side Lp).
    rewrite (insert_chunk (seqZ 0 k ≫= posAt) _ _ _ 1) by (chunk_side Lp).
    rewrite (insert_chunk (seqZ 0 k ≫= posAt) _ _ _ 2) by (chunk_side Lp).
    simpl. rewrite <-filled_fold by lia.
    unfold positionAt, row, column. by rewrite Hrow, Hcol.
  - rewrite (insert_chunk (seqZ 0 k ≫= normalAt) _ _ _ 2) by (chunk_side Ln).
    simpl. by rewrite <-filled_fold by lia.
  - rewrite (insert_chunk (seqZ 0 k ≫= texAt) _ _ _ 0) by (chunk_side Lu).
    rewrite (insert_chunk (seqZ 0 k ≫= texAt) _ _ _ 1) by (chunk_side Lu).
    simpl. rewrite <-filled_fold by lia.
    unfold uvAt, row, column. by rewrite Hrow, Hcol.
Qed.

Lemma vertexRow_inv iz st :
  0 ≤ iz < planeZ + 1 →
  vInv (iz * (planeX + 1)) st →
  vInv ((iz + 1) * (planeX + 1))
    (vertexRow centerX centerY centerZ halfWidth halfHeight
       segmentWidth segmentHeight planeX planeZ iz st).
Proof.
  intros Hiz Hst. unfold vertexRow.
  replace ((iz + 1) * (planeX + 1)) with (iz * (planeX + 1) + (planeX + 1)) by lia.
  apply (for_upto_ind (λ ix, vInv (iz * (planeX + 1) + ix))).
  - lia.
  - by rewrite Z.add_0_r.
  - intros ix st' Hix Hst'. by apply vertexBody_inv.
Qed.

Lemma vertexLoop_inv st :
  vInv 0 st →
  vInv vCount
    (vertexLoop centerX centerY centerZ halfWidth halfHeight
       segmentWidth segmentHeight planeX planeZ st).
Proof.
  intros Hst. unfold vertexLoop.
  replace vCount with ((planeZ + 1) * (planeX + 1))
    by (unfold vertexCount; lia).
  apply (for_upto_ind (λ iz, vInv (iz * (planeX + 1)))).
  - lia.
  - done.
  - intros iz st' Hiz Hst'. by apply vertexRow_inv.
Qed.

Lemma indexBody_inv t iz ix st :
  0 ≤ iz < planeZ → 0 ≤ ix < planeX →
  iInv t (iz * planeX + ix) st →
  iInv t (iz * planeX + (ix + 1)) (indexBody planeX iz ix st).
Proof.
  intros Hiz Hix (He & Ht & Ho).
  set (k := iz * planeX + ix) in *.
  assert (0 ≤ k < cCount) as Hk by (unfold cellCount; nia).
  destruct (div_mod_row planeX iz ix Hix) as [Hrow Hcol].
  fold k in Hrow, Hcol.
  replace (iz * planeX + (ix + 1)) with (k + 1) by lia.
  unfold indexBody, indexInv, index_set.
  cbn [is_indices is_offset elems elemType].
  rewrite He, Ht, Ho.
  rewrite !bool_decide_eq_true_2 by lia.
  rewrite (filled_unfold _ _ _ _ k) by done. simpl replicate.
  assert (length (seqZ 0 k ≫= cellsAt t) = (6 * Z.to_nat k)%nat) as Lc
    by (by apply length_chunks).
  repeat split; try lia.
  rewrite (insert_chunk (seqZ 0 k ≫= cellsAt t) _ _ _ 0) by (chunk_side Lc).
  rewrite (insert_chunk (seqZ 0 k ≫= cellsAt t) _ _ _ 1) by (chunk_side Lc).
  rewrite (insert_chunk (seqZ 0 k ≫= cellsAt t) _ _ _ 2) by (chunk_side Lc).
  rewrite (insert_chunk (seqZ 0 k ≫= cellsAt t) _ _ _ 3) by (chunk_side Lc).
  rewrite (insert_chunk (seqZ 0 k ≫= cellsAt t) _ _ _ 4) by (chunk_side Lc).
  rewrite (insert_chunk (seqZ 0 k ≫= cellsAt t) _ _ _ 5) by (chunk_side Lc).
  simpl. rewrite <-filled_fold by lia.
  unfold cellAt, cellTriangles, cornerA, cornerB, cornerC, cornerD.
  by rewrite Hrow, Hcol.
Qed.

Lemma indexRow_inv t iz st :
  0 ≤ iz < planeZ →
  iInv t (iz * planeX) st →
  iInv t ((iz + 1) * planeX) (indexRow planeX iz st).
Proof.
  intros Hiz Hst. unfold indexRow.
  replace ((iz + 1) * planeX) with (iz * planeX + planeX) by lia.
  apply (for_upto_ind (λ ix, iInv t (iz * planeX + ix))).
  - lia.
  - by rewrite Z.add_0_r.
  - intros ix st' Hix Hst'. by apply indexBody_inv.
Qed.

Lemma indexLoop_inv t st :
  iInv t 0 st →
  iInv t cCount (indexLoop planeX planeZ st).
Proof.
  intros Hst. unfold indexLoop.
  replace cCount with (planeZ * planeX) by (unfold cellCount; lia).
  apply (for_upto_ind (λ iz, iInv t (iz * planeX))).
  - lia.
  - done.
  - intros iz st' Hiz Hst'. by apply indexRow_inv.
Qed.

End GridFacts.

(** The vertex loops fill zero-initialised arrays of the allocated lengths
    with the vertices in row-major order. *)
Lemma vertexLoop_run cX cY cZ hW hH sW sH (planeX planeZ : Z) :
  0 ≤ planeX → 0 ≤ planeZ →
  let vs :=
    vertexLoop cX cY cZ hW hH sW sH planeX planeZ
      {| vs_positions := replicate (Z.to_nat ((planeX + 1) * (planeZ + 1) * 3)) f32_zero;
         vs_normals := replicate (Z.to_nat ((planeX + 1) * (planeZ + 1) * 3)) f32_zero;
         vs_uvs := replicate (Z.to_nat ((planeX + 1) * (planeZ + 1) * 2)) f32_zero;
         vs_offset := 0; vs_offset2 := 0 |} in
  vs_positions vs = seqZ 0 (vertexCount planeX planeZ) ≫= positionAt cX cY cZ hW hH sW sH planeX ∧
  vs_normals vs = seqZ 0 (vertexCount planeX planeZ) ≫= normalAt ∧
  vs_uvs vs = seqZ 0 (vertexCount planeX planeZ) ≫= uvAt planeX planeZ ∧
  vs_offset vs = 3 * vertexCount planeX planeZ.
Proof.
  intros HX HZ vs.
  destruct (vertexLoop_inv cX cY cZ hW hH sW sH planeX planeZ HX HZ
    {| vs_positions := replicate (Z.to_nat ((planeX + 1) * (planeZ + 1) * 3)) f32_zero;
       vs_normals := replicate (Z.to_nat ((planeX + 1) * (planeZ + 1) * 3)) f32_zero;
       vs_uvs := replicate (Z.to_nat ((planeX + 1) * (planeZ + 1) * 2)) f32_zero;
       vs_offset := 0; vs_offset2 := 0 |}) as (Hp & Hn & Hu & Ho & _).
  { unfold vertexInv; simpl. rewrite !filled_empty. unfold vertexCount.
    repeat split; try done; f_equal; nia. }
  fold vs in Hp, Hn, Hu, Ho. by rewrite Hp, Hn, Hu, Ho, !filled_full.
Qed.

(** The index loops fill a zero-initialised array of the allocated length
    with the triangles of the cells in row-major order. *)
Lemma indexLoop_run t (planeX planeZ : Z) :
  0 ≤ planeX → 0 ≤ planeZ →
  is_indices
    (indexLoop planeX planeZ
       {| is_indices := {| elemType := t; elems := replicate (Z.to_nat (planeX * planeZ * 6)) 0 |};
          is_offset := 0 |}) =
  {| elemType := t; elems := seqZ 0 (cellCount planeX planeZ) ≫= cellAt planeX t |}.
Proof.
  intros HX HZ.
  destruct (indexLoop_inv planeX planeZ HX HZ t
    {| is_indices := {| elemType := t; elems := replicate (Z.to_nat (planeX * planeZ * 6)) 0 |};
       is_offset := 0 |}) as (He & Ht & _).
  { unfold indexInv; simpl. rewrite filled_empty. unfold cellCount.
    repeat split; try done; f_equal; nia. }
  destruct (is_indices _) as [t' es]; simpl in *. by rewrite He, Ht, filled_full.
Qed.

(** ** The run of buildPlaneGeometry in closed form *)

Lemma invert_nonnegative x : nonnegative (invert x).
Proof.
  unfold invert. destruct (x <? ofZ 0)%num eqn:Hx.
  - by apply mul_minus_1_nonnegative.
  - by apply ltb_0_false_nonnegative.
Qed.

Lemma sanitizedSegments_nonnegative v : nonnegative (sanitizedSegments v).
Proof.
  unfold sanitizedSegments. destruct (_ <? ofZ 1)%num; [done|].
  apply invert_nonnegative.
Qed.

(** The floored segment count is at least 1 whenever it is finite. *)
Lemma planeSegments_ge_1 v n : planeSegments v = Int n → 1 ≤ n.
Proof.
  unfold planeSegments. intros Hn.
  destruct (Math_floor (sanitizedSegments v)) as [z| |] eqn:Hfloor;
    simpl in Hn; [| done | by injection Hn as <-].
  apply Math_floor_nonnegative in Hfloor; [|apply sanitizedSegments_nonnegative].
  destruct z; injection Hn as <-; lia.
Qed.

(** The floored segment count is finite for every segment count that is
    absent or a finite number or [NaN]. *)
Lemma planeSegments_finite v :
  match v with
  | Some x => valid x ∧ x ≠ S754_infinity false ∧ x ≠ S754_infinity true
  | None => True
  end →
  ∃ n, planeSegments v = Int n.
Proof.
  intros Hv.
  assert (finite (sanitizedSegments v)) as Hfin.
  { unfold sanitizedSegments. destruct (_ <? ofZ 1)%num; [done|].
    unfold invert. destruct (_ <? ofZ 0)%num eqn:Hneg.
    - destruct v as [x|]; [|done]. destruct Hv as (Hx & Hp & Hm).
      unfold or_default in *. destruct (truthy x); [|done].
      rewrite mul_minus_1_abs by done.
      by destruct x as [|[]| |].
    - destruct v as [x|]; [|done]. destruct Hv as (Hx & Hp & Hm).
      unfold or_default in *. destruct (truthy x) eqn:Ht; [|done].
      by destruct x as [|[]| |]. }
  unfold planeSegments.
  destruct (sanitizedSegments v) as [s|s| |s m e]; try done; simpl.
  - by exists 1.
  - destruct (Z.shiftl _ e); eauto.
Qed.

Lemma allocated_below_2_53 host n : 1 ≤ n → allocated host n → 0 < n < 2 ^ 53.
Proof.
  unfold allocated, creates, validLength, MAX_SAFE_INTEGER.
  intros Hn ([[? ?] _] & _). nia.
Qed.


Lemma new_Float32Array_creates grant len :
  creates grant 4 len →
  new_Float32Array grant len = mret (replicate (Z.to_nat len) f32_zero).
Proof. intros H. unfold new_Float32Array. by rewrite bool_decide_eq_true_2. Qed.

Lemma new_Float32Array_fails grant len :
  ¬ creates grant 4 len → new_Float32Array grant len = throw RangeError.
Proof. intros H. unfold new_Float32Array. by rewrite bool_decide_eq_false_2. Qed.

Lemma new_IndexArray_creates grant t len :
  creates grant (elementSize t) len →
  new_IndexArray grant t len =
    mret {| elemType := t; elems := replicate (Z.to_nat len) 0 |}.
Proof. intros H. unfold new_IndexArray. by rewrite bool_decide_eq_true_2. Qed.

Lemma new_IndexArray_fails grant t len :
  ¬ creates grant (elementSize t) len → new_IndexArray grant t len = throw RangeError.
Proof. intros H. unfold new_IndexArray. by rewrite bool_decide_eq_false_2. Qed.

Lemma bind_mret {A B : Type} (a : A) (f : A → M B) : mret a ≫= f = f a.
Proof. cbv [mbind M_bind mret M_ret]. by destruct (f a). Qed.

Lemma bind_throw {A B : Type} (e : Exn) (f : A → M B) : throw e ≫= f = throw e.
Proof. reflexivity. Qed.

Lemma length_positions cX cY cZ hW hH sW sH planeX planeZ :
  length (seqZ 0 (vertexCount planeX planeZ) ≫= positionAt cX cY cZ hW hH sW sH planeX) =
    (3 * Z.to_nat (vertexCount planeX planeZ))%nat.
Proof. by apply length_chunks. Qed.

Lemma vertexCount_pos planeX planeZ :
  0 ≤ planeX → 0 ≤ planeZ → 0 < vertexCount planeX planeZ.
Proof. unfold vertexCount. nia. Qed.

(** [positions.length / 3] is the number of vertices. *)
Lemma positions_length_div_3 cX cY cZ hW hH sW sH planeX planeZ :
  0 ≤ planeX → 0 ≤ planeZ →
  Z.of_nat (length (seqZ 0 (vertexCount planeX planeZ) ≫=
                      positionAt cX cY cZ hW hH sW sH planeX)) / 3 =
    vertexCount planeX planeZ.
Proof.
  intros HX HZ. pose proof (vertexCount_pos planeX planeZ HX HZ).
  rewrite length_positions.
  replace (Z.of_nat (3 * Z.to_nat (vertexCount planeX planeZ)))
    with (vertexCount planeX planeZ * 3) by lia.
  by apply Z.div_mul.
Qed.

(** The allocations and the loops, once the sizes and the segment counts are
    sanitised: what lines 105 to 173 do for an [n] by [n] grid. *)
Lemma allocate_and_fill host cX cY cZ hW hH sW sH n :
  1 ≤ n →
  (positions ← new_Float32Array (host 0%nat) ((n + 1) * (n + 1) * 3);
   normals ← new_Float32Array (host 1%nat) ((n + 1) * (n + 1) * 3);
   uvs ← new_Float32Array (host 2%nat) ((n + 1) * (n + 1) * 2);
   let vs :=
     vertexLoop cX cY cZ hW hH sW sH n n
       {| vs_positions := positions; vs_normals := normals; vs_uvs := uvs;
          vs_offset := 0; vs_offset2 := 0 |} in
   indices ← new_IndexArray (host 3%nat)
               (if Z.of_nat (length (vs_positions vs)) / 3 >? 65535 then Uint32 else Uint16)
               (n * n * 6);
   let ixs := indexLoop n n {| is_indices := indices; is_offset := 0 |} in
   mret {| primitiveType := "triangles";
           positions := vs_positions vs;
           normals := vs_normals vs;
           uv := vs_uvs vs;
           indices := is_indices ixs |}) =
  ([],
   if decide (allocated host n)
   then Return
          {| primitiveType := "triangles";
             positions := seqZ 0 (vertexCount n n) ≫= positionAt cX cY cZ hW hH sW sH n;
             normals := seqZ 0 (vertexCount n n) ≫= normalAt;
             uv := seqZ 0 (vertexCount n n) ≫= uvAt n n;
             indices :=
               {| elemType := indexType n;
                  elems := seqZ 0 (cellCount n n) ≫= cellAt n (indexType n) |} |}
   else Throw RangeError).
Proof.
  intros Hge.
  destruct (vertexLoop_run cX cY cZ hW hH sW sH n n) as (Hp & Hn & Hu & _);
    [lia..|].
  destruct (decide (creates (host 0%nat) 4 ((n + 1) * (n + 1) * 3))) as [H0|H0];
    [rewrite (new_Float32Array_creates _ _ H0), bind_mret; cbv beta
    |rewrite (new_Float32Array_fails _ _ H0), bind_throw;
     by destruct (decide (allocated host n)) as [[]|]].
  destruct (decide (creates (host 1%nat) 4 ((n + 1) * (n + 1) * 3))) as [H1|H1];
    [rewrite (new_Float32Array_creates _ _ H1), bind_mret; cbv beta
    |rewrite (new_Float32Array_fails _ _ H1), bind_throw;
     by destruct (decide (allocated host n)) as [(_ & ? & _)|]].
  destruct (decide (creates (host 2%nat) 4 ((n + 1) * (n + 1) * 2))) as [H2|H2];
    [rewrite (new_Float32Array_creates _ _ H2), bind_mret; cbv beta
    |rewrite (new_Float32Array_fails _ _ H2), bind_throw;
     by destruct (decide (allocated host n)) as [(_ & _ & ? & _)|]].
  cbv zeta. rewrite Hp, Hn, Hu, positions_length_div_3 by lia.
  change (if vertexCount n n >? 65535 then Uint32 else Uint16) with (indexType n).
  destruct (decide (creates (host 3%nat) (elementSize (indexType n)) (n * n * 6)))
    as [H3|H3].
  - rewrite (new_IndexArray_creates _ _ _ H3), bind_mret. cbv beta.
    rewrite indexLoop_run by lia.
    by destruct (decide (allocated host n)) as [|[]].
  - rewrite (new_IndexArray_fails _ _ _ H3), bind_throw.
    by destruct (decide (allocated host n)) as [(_ & _ & _ & ?)|].
Qed.

Lemma bind_console_error {A B : Type} (line : string) (a : A) (f : A → M B) :
  (console_error line;; mret a) ≫= f = after [line] (f a).
Proof. cbv [mbind M_bind mret M_ret console_error after]. by destruct (f a). Qed.

(** Every run writes [diagnostics cfg] to the console; it returns the
    geometry of an [n] by [n] grid, [n] being the floored segment count, when
    the four arrays of that grid are created, and throws otherwise. *)
Lemma buildPlaneGeometry_run (host : Host) (arg : option Cfg) :
  let cfg := default emptyCfg arg in
  buildPlaneGeometry host arg =
    (diagnostics cfg,
     match planeSegments (cfg_xSegments cfg) with
     | Int n =>
       if decide (allocated host n) then Return (planeGeometry cfg n)
       else Throw RangeError
     | _ => Throw RangeError
     end).
Proof.
  intros cfg.
  pose proof (planeSegments_ge_1 (cfg_xSegments cfg)) as Hge.
  unfold buildPlaneGeometry. fold cfg.
  unfold diagnostics, planeGeometry, sanitizedSize, isNegative in *.
  unfold planeSegments, sanitizedSegments, invert in *.
  destruct (cfg_xSize cfg || ofZ 1 <? ofZ 0)%num;
    destruct (cfg_zSize cfg || ofZ 1 <? ofZ 0)%num;
    destruct (cfg_xSegments cfg || ofZ 1 <? ofZ 0)%num.
  all: repeat (first [rewrite bind_console_error | rewrite bind_mret]; cbv beta).
  all: destruct (integral_or _ 1) as [n| |]; [|reflexivity..].
  all: rewrite allocate_and_fill by (by apply Hge).
  all: reflexivity.
Qed.

Lemma buildPlaneGeometry_allocated host arg n :
  planeSegments (cfg_xSegments (default emptyCfg arg)) = Int n →
  allocated host n →
  buildPlaneGeometry host arg =
    (diagnostics (default emptyCfg arg), Return (planeGeometry (default emptyCfg arg) n)).
Proof.
  intros Hn Ha. rewrite buildPlaneGeometry_run. cbv zeta. rewrite Hn.
  by destruct (decide (allocated host n)).
Qed.

Lemma buildPlaneGeometry_not_allocated host arg n :
  planeSegments (cfg_xSegments (default emptyCfg arg)) = Int n →
  ¬ allocated host n →
  buildPlaneGeometry host arg = (diagnostics (default emptyCfg arg), Throw RangeError).
Proof.
  intros Hn Ha. rewrite buildPlaneGeometry_run. cbv zeta. rewrite Hn.
  by destruct (decide (allocated host n)).
Qed.

(** A run that returns has a finite segment count of at least 1, whose
    arrays were created, and returns the geometry of that grid. *)
Lemma buildPlaneGeometry_returns host arg g :
  outcome (buildPlaneGeometry host arg) = Return g →
  ∃ n, planeSegments (cfg_xSegments (default emptyCfg arg)) = Int n ∧
       1 ≤ n ∧ allocated host n ∧ g = planeGeometry (default emptyCfg arg) n.
Proof.
  rewrite buildPlaneGeometry_run. unfold outcome; simpl.
  destruct (planeSegments _) as [n| |] eqn:Hn; [|done..].
  destruct (decide (allocated host n)) as [Ha|]; [|done].
  intros [= <-]. exists n. eauto using planeSegments_ge_1.
Qed.

Lemma console_diagnostics host arg :
  console (buildPlaneGeometry host arg) = diagnostics (default emptyCfg arg).
Proof. by rewrite buildPlaneGeometry_run. Qed.

(** ** The contents of the returned arrays *)

Section Geometry.

Variable cfg : Cfg.
Variable n : Z.
Hypothesis n_ge_1 : 1 ≤ n.

Let g : Geometry := planeGeometry cfg n.
Let vc : Z := vertexCount n n.

Lemma length_positions_g : Z.of_nat (length (positions g)) = 3 * vc.
Proof.
  unfold g, planeGeometry; cbn [positions normals uv indices elems]. rewrite (length_chunks 3) by done.
  unfold vc, vertexCount. nia.
Qed.

Lemma length_normals_g : Z.of_nat (length (normals g)) = 3 * vc.
Proof.
  unfold g, planeGeometry; cbn [positions normals uv indices elems]. rewrite (length_chunks 3) by done.
  unfold vc, vertexCount. nia.
Qed.

Lemma length_uv_g : Z.of_nat (length (uv g)) = 2 * vc.
Proof.
  unfold g, planeGeometry; cbn [positions normals uv indices elems]. rewrite (length_chunks 2) by done.
  unfold vc, vertexCount. nia.
Qed.

Lemma length_indices_g : Z.of_nat (length (elems (indices g))) = 6 * (n * n).
Proof.
  unfold g, planeGeometry; cbn [positions normals uv indices elems]. rewrite (length_chunks 6) by done.
  unfold cellCount. nia.
Qed.

(** The vertex in column [ix] of row [iz] occupies three consecutive
    positions. *)
Lemma positions_lookup ix iz (j : nat) :
  0 ≤ ix ≤ n → 0 ≤ iz ≤ n → (j < 3)%nat →
  positions g !! (3 * Z.to_nat (iz * (n + 1) + ix) + j)%nat =
    positionAt (center_component (cfg_center cfg) 0) (center_component (cfg_center cfg) 1)
      (center_component (cfg_center cfg) 2)
      (sanitizedSize (cfg_xSize cfg) / ofZ 2)%num (sanitizedSize (cfg_zSize cfg) / ofZ 2)%num
      (sanitizedSize (cfg_xSize cfg) / ofZ n)%num (sanitizedSize (cfg_zSize cfg) / ofZ n)%num
      n (iz * (n + 1) + ix) !! j.
Proof.
  intros Hix Hiz Hj. unfold g, planeGeometry; cbn [positions normals uv indices elems].
  by rewrite (lookup_chunks 3) by (done || unfold vertexCount; nia).
Qed.

(** Vertex [k] occupies three consecutive normals. *)
Lemma normals_lookup k (j : nat) :
  0 ≤ k < vc → (j < 3)%nat →
  normals g !! (3 * Z.to_nat k + j)%nat = normalAt k !! j.
Proof. intros Hk Hj. unfold g, planeGeometry; cbn [positions normals uv indices elems]. by apply lookup_chunks. Qed.

(** The vertex in column [ix] of row [iz] occupies two consecutive texture
    coordinates. *)
Lemma uv_lookup ix iz (j : nat) :
  0 ≤ ix ≤ n → 0 ≤ iz ≤ n → (j < 2)%nat →
  uv g !! (2 * Z.to_nat (iz * (n + 1) + ix) + j)%nat =
    [fround (ofZ ix / ofZ n)%num; fround (ofZ (n - iz) / ofZ n)%num] !! j.
Proof.
  intros Hix Hiz Hj. unfold g, planeGeometry; cbn [positions normals uv indices elems].
  rewrite (lookup_chunks 2) by (done || unfold vertexCount; nia).
  unfold uvAt, row, column.
  destruct (div_mod_row (n + 1) iz ix) as [-> ->]; [lia|done].
Qed.

(** The cell in column [ix] of row [iz] occupies six consecutive indices. *)
Lemma indices_lookup ix iz (j : nat) :
  0 ≤ ix < n → 0 ≤ iz < n → (j < 6)%nat →
  elems (indices g) !! (6 * Z.to_nat (iz * n + ix) + j)%nat =
    (wrap (indexType n) <$> cellTriangles n ix iz) !! j.
Proof.
  intros Hix Hiz Hj. unfold g, planeGeometry; cbn [positions normals uv indices elems].
  rewrite (lookup_chunks 6) by (done || unfold cellCount; nia).
  unfold cellAt.
  destruct (div_mod_row n iz ix) as [-> ->]; [lia|done].
Qed.


(** Every corner of a cell is the index of a vertex. *)
Lemma cellTriangles_bounds ix iz :
  0 ≤ ix < n → 0 ≤ iz < n →
  Forall (λ i, 0 ≤ i < vc) (cellTriangles n ix iz).
Proof.
  intros Hix Hiz.
  unfold cellTriangles, cornerA, cornerB, cornerC, cornerD, vc, vertexCount.
  repeat constructor; nia.
Qed.

(** The conversion of the chosen element type keeps a vertex index below
    the vertex count: 16-bit storage is chosen only when every index fits,
    and a value reduced modulo 2^32 does not grow. *)
Lemma wrap_below_vertexCount i :
  0 ≤ i < vc → 0 ≤ wrap (indexType n) i < vc.
Proof.
  intros Hi. unfold wrap, indexType. fold vc.
  destruct (vc >? 65535) eqn:Hvc; simpl bits.
  - pose proof (Z.mod_pos_bound i (2 ^ 32)).
    pose proof (Z.mod_le i (2 ^ 32)). lia.
  - rewrite Z.mod_small; lia.
Qed.

(** Below 2^32 vertices the conversion stores every vertex index as it is. *)
Lemma wrap_exact i :
  vc ≤ 2 ^ 32 → 0 ≤ i < vc → wrap (indexType n) i = i.
Proof.
  intros Hvc Hi. unfold wrap, indexType. fold vc.
  destruct (vc >? 65535) eqn:Hvc'; simpl bits; rewrite Z.mod_small; lia.
Qed.

Lemma indices_bounds : Forall (λ i, 0 ≤ i < vc) (elems (indices g)).
Proof.
  unfold g, planeGeometry; cbn [positions normals uv indices elems]. apply Forall_bind, Forall_seqZ.
  intros k Hk. unfold cellCount in Hk. simpl. unfold cellAt.
  assert (0 ≤ k mod n < n) by (apply Z.mod_pos_bound; lia).
  assert (0 ≤ k / n < n).
  { split; [apply Z.div_pos; lia | apply Z.div_lt_upper_bound; lia]. }
  apply Forall_fmap.
  eapply Forall_impl; [by apply cellTriangles_bounds|].
  intros i Hi. by apply wrap_below_vertexCount.
Qed.

End Geometry.

(** ** Sizes *)

Lemma negative_truthy x : (x <? ofZ 0)%num = true → truthy x = true.
Proof. by intros [->|(m & e & ->)]%ltb_0_true_negative. Qed.

Lemma abs_not_negative x : (abs x <? ofZ 0)%num = false.
Proof. rewrite ofZ_0. by destruct x as [[]|[]| |[] m e]. Qed.

(** A negative size is replaced by its absolute value, which is what the
    absolute value itself is sanitised to. *)
Lemma sanitizedSize_negative x :
  valid x → (x <? ofZ 0)%num = true →
  isNegative (Some x) = true ∧
  sanitizedSize (Some x) = abs x ∧
  sanitizedSize (Some (abs x)) = abs x.
Proof.
  intros Hv Hx. pose proof (negative_truthy x Hx) as Ht.
  unfold isNegative, sanitizedSize, invert, or_default.
  rewrite Ht, Hx. repeat split; [by apply mul_minus_1_abs|].
  assert (truthy (abs x) = true) as -> by (by destruct x).
  by rewrite abs_not_negative.
Qed.

(** ** Texture coordinates at the corners of the grid *)

Lemma fround_div_0 n :
  0 < n < 2 ^ 53 → fround (ofZ 0 / ofZ n)%num = f32_zero.
Proof. intros (m & e & ->)%ofZ_pos_finite. reflexivity. Qed.

Lemma fround_div_diag n :
  0 < n < 2 ^ 53 → fround (ofZ n / ofZ n)%num = f32_one.
Proof. intros (m & e & ->)%ofZ_pos_finite. by rewrite div_diag. Qed.

(** ** Diagnostics *)

Lemma isNegative_negative v : (v <? ofZ 0)%num = true → isNegative (Some v) = true.
Proof.
  intros Hv. unfold isNegative, or_default. by rewrite (negative_truthy v Hv).
Qed.

Lemma isNegative_absent_or_nonnegative (o : option number) :
  o = None ∨ (∃ x, o = Some x ∧ (x <? ofZ 0)%num = false) →
  isNegative o = false.
Proof.
  intros [->|(x & -> & Hx)]; [done|].
  unfold isNegative, or_default. by destruct (truthy x).
Qed.

(** ** Segment counts *)

Lemma pos_iter_xO p k : Z.pos (Pos.iter xO p k) = Z.pos p * 2 ^ Z.pos k.
Proof.
  induction k as [|k IH] using Pos.peano_ind.
  - simpl. lia.
  - rewrite Pos.iter_succ, Pos2Z.inj_succ, Z.pow_succ_r by lia.
    rewrite Pos2Z.inj_xO, IH. lia.
Qed.

(** The mantissa and the exponent of a positive integer below 2^53. *)
Lemma ofZ_pos_shape n :
  0 < n < 2 ^ 53 →
  ∃ m e, ofZ n = S754_finite false m e ∧ -52 ≤ e ≤ 0 ∧ Z.pos m = n * 2 ^ (- e).
Proof.
  intros Hn. destruct n as [|p|p]; [lia| |lia].
  assert (Z.pos (digits2_pos p) ≤ 53) as Hd.
  { destruct (decide (Z.pos (digits2_pos p) ≤ 53)) as [|Hgt]; [done|].
    pose proof (digits2_pos_lower p).
    pose proof (Z.pow_le_mono_r 2 53 (Z.pos (digits2_pos p) - 1)). lia. }
  unfold ofZ, binary_normalize, binary_round, shl_align.
  assert (fexp prec emax (Z.pos (digits2_pos p) + 0) = Z.pos (digits2_pos p) - 53)
    as -> by (unfold fexp, emin, prec, emax; lia).
  destruct (Z.pos (digits2_pos p) - 53 - 0) as [|k|k] eqn:Hk; [|lia|].
  - exists p, 0. split; [|simpl; lia]. apply binary_round_aux_valid.
    apply andb_true_intro. split; [|done]. apply Z.eqb_eq.
    unfold fexp, emin, prec, emax. lia.
  - exists (Pos.iter xO p k), (Z.pos (digits2_pos p) - 53).
    split; [|split; [lia|]].
    + apply binary_round_aux_valid.
      apply andb_true_intro. split; [apply Z.eqb_eq|apply Z.leb_le].
      * rewrite digits2_pos_iter_xO. unfold fexp, emin, prec, emax. lia.
      * unfold prec, emax. lia.
    + rewrite pos_iter_xO. f_equal. f_equal. lia.
Qed.

(** [Math.floor] of an integer is that integer. *)
Lemma Math_floor_ofZ n : 0 < n < 2 ^ 53 → Math_floor (ofZ n) = Int n.
Proof.
  intros (m & e & -> & He & Hm)%ofZ_pos_shape. simpl. f_equal.
  rewrite Hm, <-Z.shiftr_opp_r, Z.shiftr_div_pow2 by lia.
  apply Z.div_mul. apply Z.pow_nonzero; lia.
Qed.

(** An integer that is at least 1 is not below 1 as a number. *)
Lemma ofZ_not_below_1 n : 1 ≤ n < 2 ^ 53 → (ofZ n <? ofZ 1)%num = false.
Proof.
  intros Hn. destruct (ofZ_pos_shape n) as (m & e & -> & He & Hm); [lia|].
  rewrite ofZ_1. unfold ltb, SFltb, SFcompare.
  destruct (Z.compare_spec e (-52)) as [Heq|Hlt|Hgt]; [|lia|done].
  rewrite Pos.compare_cont_spec. cbn [Pos.switch_Eq].
  destruct (Pos.compare_spec m 4503599627370496) as [|Hlt|]; [done| |done].
  exfalso. subst e. change (2 ^ (- -52)) with 4503599627370496 in Hm.
  assert (Z.pos m < 4503599627370496) as Hlt' by exact Hlt.
  destruct Hn as [Hn _]. clear Hlt He. lia.
Qed.

(** An integer segment count is taken as it is. *)
Lemma planeSegments_ofZ n : 1 ≤ n < 2 ^ 53 → planeSegments (Some (ofZ n)) = Int n.
Proof.
  intros Hn. unfold planeSegments, sanitizedSegments, invert, or_default.
  destruct (ofZ_pos_shape n) as (m & e & Hshape & _); [lia|].
  assert (truthy (ofZ n) = true) as -> by (by rewrite Hshape).
  assert ((ofZ n <? ofZ 0)%num = false) as -> by (by rewrite Hshape).
  rewrite ofZ_not_below_1, Math_floor_ofZ by lia.
  destruct n as [|p|p]; [lia|done..].
Qed.

(** A negative segment count is replaced by its absolute value. *)
Lemma planeSegments_negative x :
  valid x → (x <? ofZ 0)%num = true →
  planeSegments (Some x) = planeSegments (Some (abs x)).
Proof.
  intros Hv Hx. destruct (sanitizedSize_negative x Hv Hx) as (_ & Hs & Hs').
  unfold planeSegments, sanitizedSegments.
  change (invert (Some x || ofZ 1)%num) with (sanitizedSize (Some x)).
  change (invert (Some (abs x) || ofZ 1)%num) with (sanitizedSize (Some (abs x))).
  by rewrite Hs, Hs'.
Qed.

(** A segment count of magnitude below 1 is raised to 1. *)
Lemma planeSegments_below_1 x :
  valid x → (abs x <? ofZ 1)%num = true → planeSegments (Some x) = Int 1.
Proof.
  intros Hv Hx. destruct x as [s|s| |s m e]; [done|by destruct s|done|].
  destruct s.
  - rewrite planeSegments_negative by done.
    unfold planeSegments, sanitizedSegments, invert, or_default.
    cbn [abs SFabs truthy] in *.
    change (S754_finite false m e <? ofZ 0)%num with false. cbv iota.
    by rewrite Hx.
  - unfold planeSegments, sanitizedSegments, invert, or_default.
    cbn [abs SFabs truthy] in *.
    change (S754_finite false m e <? ofZ 0)%num with false. cbv iota.
    by rewrite Hx.
Qed.

(** What a call returns or throws depends on [cfg.xSegments] through the
    floored segment count only. *)
Lemma outcome_with_xSegments host cfg v v' :
  planeSegments v = planeSegments v' →
  outcome (buildPlaneGeometry host (Some (with_xSegments v cfg))) =
    outcome (buildPlaneGeometry host (Some (with_xSegments v' cfg))).
Proof.
  intros Hseg. rewrite !buildPlaneGeometry_run. unfold outcome.
  cbn [snd default from_option id with_xSegments cfg_xSegments].
  by rewrite Hseg.
Qed.

(** ** Stored indices *)

(** Two values less than 2^bits apart are stored as different indices. *)
Lemma wrap_neq t x y : 0 < y - x < 2 ^ bits t → wrap t x ≠ wrap t y.
Proof.
  intros Hxy Heq. unfold wrap in Heq.
  assert (0 < 2 ^ bits t) as Hpos by (destruct t; done).
  pose proof (Z.div_mod x (2 ^ bits t)) as Hx.
  pose proof (Z.div_mod y (2 ^ bits t)) as Hy.
  assert (y - x = 2 ^ bits t * (y / 2 ^ bits t - x / 2 ^ bits t)) as Hdiff by lia.
  generalize dependent (y / 2 ^ bits t - x / 2 ^ bits t). intros d Hd.
  destruct (decide (d ≤ 0)); nia.
Qed.

(** The row length of a grid whose arrays were created is less than the
    number of values of the index element type. *)
Lemma allocated_row_below_bits host n :
  1 ≤ n → allocated host n → n + 1 < 2 ^ bits (indexType n).
Proof.
  intros Hn ([[[_ Hlen] _] _] & _). unfold indexType, vertexCount.
  destruct (_ >? _) eqn:Hvc; simpl bits.
  - unfold MAX_SAFE_INTEGER in Hlen. nia.
  - rewrite Z.gtb_ltb, Z.ltb_ge in Hvc. nia.
Qed.

(** * The embedding on examples *)

Example buildPlaneGeometry_default :
  buildPlaneGeometry smallHost None = ([], Return unitPlane).
Proof. vm_compute. reflexivity. Qed.

Example buildPlaneGeometry_empty :
  buildPlaneGeometry smallHost (Some emptyCfg) = ([], Return unitPlane).
Proof. vm_compute. reflexivity. Qed.

(** [Math.floor(2.5)], [Math.floor(-2.5)], [Math.floor(0.5)] and
    [Math.floor(-0.5)]. *)
Example Math_floor_halves :
  Math_floor (ofZ 5 / ofZ 2)%num = Int 2 ∧
  Math_floor (ofZ (-5) / ofZ 2)%num = Int (-3) ∧
  Math_floor (ofZ 1 / ofZ 2)%num = Int 0 ∧
  Math_floor (ofZ (-1) / ofZ 2)%num = Int (-1).
Proof. repeat split. Qed.

(** The floored segment count of [2.5], [-3], [0], [0.25], [NaN], an absent
    count and [Infinity]. *)
Example planeSegments_examples :
  planeSegments (Some (ofZ 5 / ofZ 2)%num) = Int 2 ∧
  planeSegments (Some (ofZ (-3))) = Int 3 ∧
  planeSegments (Some (ofZ 0)) = Int 1 ∧
  planeSegments (Some (ofZ 1 / ofZ 4)%num) = Int 1 ∧
  planeSegments (Some NaN) = Int 1 ∧
  planeSegments None = Int 1 ∧
  planeSegments (Some Infinity) = IntInfinity false.
Proof. repeat split. Qed.

(** A third is not representable: the texture coordinate stored for it is
    the single precision number nearest to the binary64 quotient. *)
Example fround_third :
  fround (ofZ 1 / ofZ 3)%num = S754_finite false 11184811 (-25).
Proof. reflexivity. Qed.

Example buildPlaneGeometry_odd :
  ∃ g, buildPlaneGeometry smallHost (Some oddCfg) =
         (["negative xSize not allowed - will invert"%string], Return g) ∧
       length (positions g) = 27%nat ∧
       elems (indices g) =
         [1; 3; 0; 1; 4; 3; 2; 4; 1; 2; 5; 4; 4; 6; 3; 4; 7; 6; 5; 7; 4; 5; 8; 7].
Proof. eexists. split; [vm_compute; reflexivity|]. split; reflexivity. Qed.

(** An infinite segment count has no array length: the call throws on every
    host. *)
Example buildPlaneGeometry_Infinity host :
  buildPlaneGeometry host (Some (with_xSegments (Some Infinity) emptyCfg)) =
    ([], Throw RangeError).
Proof. reflexivity. Qed.

(** The arrays of a grid of 65536 segments take more than 32 GiB: a host
    without that room refuses the positions, and the call throws. *)
Example buildPlaneGeometry_65536 :
  outcome (buildPlaneGeometry (hostWithRoom (2 ^ 35)) (Some (segmentsCfg 65536 65536))) =
    Throw RangeError.
Proof.
  assert (planeSegments (Some (ofZ 65536)) = Int 65536) as Hn
    by (vm_compute; reflexivity).
  assert (¬ allocated (hostWithRoom (2 ^ 35)) 65536) as Ha.
  { intros ([_ Hgrant] & _). vm_compute in Hgrant. discriminate. }
  exact (f_equal outcome
           (buildPlaneGeometry_not_allocated (hostWithRoom (2 ^ 35))
              (Some (segmentsCfg 65536 65536)) 65536 Hn Ha)).
Qed.

(** * The properties of the specification *)

(** C1.  The Z-axis grid density is derived from [cfg.xSegments]: the value
    supplied as [cfg.zSegments] has no effect on what a call writes, returns
    or throws.  With [xSegments = 4] and [zSegments = 8] the call returns
    what it returns with both segment counts 4, a grid of 5 by 5 vertices
    and 4 by 4 cells. *)
Theorem zSegments_ignored :
  (∀ host cfg v,
     buildPlaneGeometry host (Some (with_zSegments v cfg)) =
       buildPlaneGeometry host (Some cfg)) ∧
  ∃ g, buildPlaneGeometry smallHost (Some (segmentsCfg 4 8)) = ([], Return g) ∧
       buildPlaneGeometry smallHost (Some (segmentsCfg 4 4)) = ([], Return g) ∧
       length (positions g) = (3 * (5 * 5))%nat ∧
       length (elems (indices g)) = (6 * (4 * 4))%nat.
Proof.
  split; [by intros host [] v|].
  eexists. split; [vm_compute; reflexivity|].
  split; vm_compute; auto.
Qed.

(** C2.  The vertex count is not [(xSegments + 1) * (zSegments + 1)] and the
    triangle count is not [2 * xSegments * zSegments]: with
    [{xSegments: 4, zSegments: 8}] the call returns 25 vertices and 32
    triangles, not the 45 vertices and 64 triangles of a 4 by 8 grid; and
    whatever the host, a geometry returned for this configuration has these
    25 vertices and 32 triangles. *)
Theorem counts_at_4_by_8 :
  (∃ g, buildPlaneGeometry smallHost (Some (segmentsCfg 4 8)) = ([], Return g) ∧
        Z.of_nat (length (positions g)) = 3 * 25 ∧
        Z.of_nat (length (elems (indices g))) = 3 * 32 ∧
        25 ≠ (4 + 1) * (8 + 1) ∧ 32 ≠ 2 * 4 * 8) ∧
  (∀ host g,
     outcome (buildPlaneGeometry host (Some (segmentsCfg 4 8))) = Return g →
     Z.of_nat (length (positions g)) = 3 * 25 ∧
     Z.of_nat (length (elems (indices g))) = 3 * 32).
Proof.
  split.
  - eexists. split; [vm_compute; reflexivity|].
    repeat split; vm_compute; congruence.
  - intros host g (n & Hn & _ & _ & ->)%buildPlaneGeometry_returns.
    vm_compute in Hn. injection Hn as <-. split; reflexivity.
Qed.

(** C3.  Structural invariant of every returned geometry: the vertex loops
    generate [n + 1] rows of [n + 1] vertices, [n] being the floored segment
    count ([vertexLoop_run]), and with [vertexCount = (n + 1) * (n + 1)] the
    positions and the normals hold [3 * vertexCount] elements, the texture
    coordinates [2 * vertexCount], the number of indices is divisible by 3,
    and every index is below [vertexCount]. *)
Theorem structural_invariant host arg g :
  outcome (buildPlaneGeometry host arg) = Return g →
  ∃ n, planeSegments (cfg_xSegments (default emptyCfg arg)) = Int n ∧
       let vertexCount := (n + 1) * (n + 1) in
       Z.of_nat (length (positions g)) = 3 * vertexCount ∧
       Z.of_nat (length (normals g)) = 3 * vertexCount ∧
       Z.of_nat (length (uv g)) = 2 * vertexCount ∧
       Z.of_nat (length (elems (indices g))) mod 3 = 0 ∧
       Forall (λ i, 0 ≤ i < vertexCount) (elems (indices g)).
Proof.
  intros (n & Hn & Hge & _ & ->)%buildPlaneGeometry_returns.
  exists n. split; [done|]. cbv zeta.
  split; [by apply length_positions_g|].
  split; [by apply length_normals_g|].
  split; [by apply length_uv_g|].
  split; [|by apply indices_bounds].
  rewrite length_indices_g by done.
  replace (6 * (n * n)) with (2 * (n * n) * 3) by lia. apply Z.mod_mul. lia.
Qed.

Lemma structural_invariant_witness :
  ∃ n, planeSegments (cfg_xSegments (default emptyCfg None)) = Int n ∧
       let vertexCount := (n + 1) * (n + 1) in
       Z.of_nat (length (positions unitPlane)) = 3 * vertexCount ∧
       Z.of_nat (length (normals unitPlane)) = 3 * vertexCount ∧
       Z.of_nat (length (uv unitPlane)) = 2 * vertexCount ∧
       Z.of_nat (length (elems (indices unitPlane))) mod 3 = 0 ∧
       Forall (λ i, 0 ≤ i < vertexCount) (elems (indices unitPlane)).
Proof.
  apply (structural_invariant smallHost None unitPlane). vm_compute. reflexivity.
Defined.



(** C5.  A negative [xSize] (and likewise a negative [zSize]) is inverted,
    not rejected: the call returns (or throws) exactly what it does for the
    absolute value of that size, and it writes the diagnostic line. *)
Theorem negative_size_inverted host cfg x :
  valid x → (x <? ofZ 0)%num = true →
  (outcome (buildPlaneGeometry host (Some (with_xSize (Some x) cfg))) =
     outcome (buildPlaneGeometry host (Some (with_xSize (Some (abs x)) cfg))) ∧
   "negative xSize not allowed - will invert"%string ∈
     console (buildPlaneGeometry host (Some (with_xSize (Some x) cfg)))) ∧
  (outcome (buildPlaneGeometry host (Some (with_zSize (Some x) cfg))) =
     outcome (buildPlaneGeometry host (Some (with_zSize (Some (abs x)) cfg))) ∧
   "negative zSize not allowed - will invert"%string ∈
     console (buildPlaneGeometry host (Some (with_zSize (Some x) cfg)))).
Proof.
  intros Hv Hx. destruct (sanitizedSize_negative x Hv Hx) as (Hneg & Hs & Hs').
  rewrite !buildPlaneGeometry_run. unfold outcome, console.
  cbn [fst snd default from_option id with_xSize with_zSize cfg_xSegments].
  unfold planeGeometry, diagnostics.
  cbn [with_xSize with_zSize cfg_center cfg_xSize cfg_zSize cfg_xSegments].
  rewrite Hs, Hs', Hneg. repeat split; try done.
  - apply elem_of_app. left. apply list_elem_of_here.
  - apply elem_of_app. right. apply elem_of_app. left. apply list_elem_of_here.
Qed.

Lemma negative_size_inverted_witness :
  (outcome (buildPlaneGeometry smallHost (Some (with_xSize (Some (ofZ (-2))) emptyCfg))) =
     outcome (buildPlaneGeometry smallHost (Some (with_xSize (Some (ofZ 2)) emptyCfg))) ∧
   "negative xSize not allowed - will invert"%string ∈
     console (buildPlaneGeometry smallHost (Some (with_xSize (Some (ofZ (-2))) emptyCfg)))) ∧
  (outcome (buildPlaneGeometry smallHost (Some (with_zSize (Some (ofZ (-2))) emptyCfg))) =
     outcome (buildPlaneGeometry smallHost (Some (with_zSize (Some (ofZ 2)) emptyCfg))) ∧
   "negative zSize not allowed - will invert"%string ∈
     console (buildPlaneGeometry smallHost (Some (with_zSize (Some (ofZ (-2))) emptyCfg)))).
Proof. apply (negative_size_inverted smallHost emptyCfg (ofZ (-2))); reflexivity. Defined.

(** C6.  In every returned geometry the normals come in triples and every
    triple is exactly (0, 0, -1): components [3k] and [3k + 1] are 0 and
    component [3k + 2] is -1, for every vertex [k]. *)
Theorem normals_uniform host arg g :
  outcome (buildPlaneGeometry host arg) = Return g →
  (∃ vertexCount, length (normals g) = (3 * vertexCount)%nat) ∧
  ∀ k : nat, (3 * k + 2 < length (normals g))%nat →
    normals g !! (3 * k)%nat = Some f32_zero ∧
    normals g !! (3 * k + 1)%nat = Some f32_zero ∧
    normals g !! (3 * k + 2)%nat = Some f32_minus_one.
Proof.
  intros (n & Hn & Hge & _ & ->)%buildPlaneGeometry_returns.
  pose proof (length_normals_g (default emptyCfg arg) n Hge) as Hlen.
  split.
  - exists (Z.to_nat (vertexCount n n)). lia.
  - intros k Hk.
    pose proof (normals_lookup (default emptyCfg arg) n (Z.of_nat k)) as Hlook.
    rewrite Nat2Z.id in Hlook.
    rewrite <-(Nat.add_0_r (3 * k)) at 1.
    rewrite !Hlook by lia. done.
Qed.

Lemma normals_uniform_witness :
  (∃ vertexCount, length (normals unitPlane) = (3 * vertexCount)%nat) ∧
  ∀ k : nat, (3 * k + 2 < length (normals unitPlane))%nat →
    normals unitPlane !! (3 * k)%nat = Some f32_zero ∧
    normals unitPlane !! (3 * k + 1)%nat = Some f32_zero ∧
    normals unitPlane !! (3 * k + 2)%nat = Some f32_minus_one.
Proof.
  apply (normals_uniform smallHost None unitPlane). vm_compute. reflexivity.
Defined.

(** C7.  In every returned geometry the texture coordinate of the vertex in
    column [ix] of row [iz] is [(ix / n, (n - iz) / n)], [n] being the
    segment count of both axes; the quotients are those of the numbers,
    stored in single precision.  The vertex at [(0, 0)] has exactly (0, 1)
    and the vertex at [(n, n)] has exactly (1, 0). *)
Theorem uv_formula host arg g :
  outcome (buildPlaneGeometry host arg) = Return g →
  ∃ n, planeSegments (cfg_xSegments (default emptyCfg arg)) = Int n ∧
       let texCoord ix iz :=
         (uv g !! (2 * Z.to_nat (iz * (n + 1) + ix))%nat,
          uv g !! (2 * Z.to_nat (iz * (n + 1) + ix) + 1)%nat) in
       (∀ ix iz, 0 ≤ ix ≤ n → 0 ≤ iz ≤ n →
          texCoord ix iz =
            (Some (fround (ofZ ix / ofZ n)%num),
             Some (fround (ofZ (n - iz) / ofZ n)%num))) ∧
       texCoord 0 0 = (Some f32_zero, Some f32_one) ∧
       texCoord n n = (Some f32_one, Some f32_zero).
Proof.
  intros (n & Hn & Hge & Ha & ->)%buildPlaneGeometry_returns.
  pose proof (allocated_below_2_53 host n Hge Ha) as Hlt.
  pose proof (uv_lookup (default emptyCfg arg) n Hge) as Hlook.
  exists n. split; [done|]. cbv zeta.
  assert (∀ ix iz, 0 ≤ ix ≤ n → 0 ≤ iz ≤ n →
    (uv (planeGeometry (default emptyCfg arg) n) !! (2 * Z.to_nat (iz * (n + 1) + ix))%nat,
     uv (planeGeometry (default emptyCfg arg) n) !! (2 * Z.to_nat (iz * (n + 1) + ix) + 1)%nat) =
    (Some (fround (ofZ ix / ofZ n)%num),
     Some (fround (ofZ (n - iz) / ofZ n)%num))) as Hall.
  { intros ix iz Hix Hiz. f_equal.
    - rewrite <-(Nat.add_0_r (2 * _)). by rewrite Hlook by lia.
    - by rewrite Hlook by lia. }
  split; [done|].
  rewrite !Hall by lia. rewrite Z.sub_0_r, Z.sub_diag.
  by rewrite fround_div_0, fround_div_diag.
Qed.

Lemma uv_formula_witness :
  ∃ n, planeSegments (cfg_xSegments (default emptyCfg None)) = Int n ∧
       let texCoord ix iz :=
         (uv unitPlane !! (2 * Z.to_nat (iz * (n + 1) + ix))%nat,
          uv unitPlane !! (2 * Z.to_nat (iz * (n + 1) + ix) + 1)%nat) in
       (∀ ix iz, 0 ≤ ix ≤ n → 0 ≤ iz ≤ n →
          texCoord ix iz =
            (Some (fround (ofZ ix / ofZ n)%num),
             Some (fround (ofZ (n - iz) / ofZ n)%num))) ∧
       texCoord 0 0 = (Some f32_zero, Some f32_one) ∧
       texCoord n n = (Some f32_one, Some f32_zero).
Proof. apply (uv_formula smallHost None unitPlane). vm_compute. reflexivity. Defined.

(** C8, counterexample to the call never throwing: with 100000000 segments
    the positions would need 3 * 100000001 * 100000001 elements, which is no
    valid typed array length, and the call throws on every host. *)
Lemma throws_at_100000000 :
  (∀ host,
     buildPlaneGeometry host (Some (with_xSegments (Some (ofZ 100000000)) emptyCfg)) =
       ([], Throw RangeError)) ∧
  MAX_SAFE_INTEGER < 3 * (100000000 + 1) * (100000000 + 1).
Proof.
  split; [|vm_compute; reflexivity].
  intros host.
  assert (planeSegments (Some (ofZ 100000000)) = Int 100000000) as Hn
    by (vm_compute; reflexivity).
  assert (¬ allocated host 100000000) as Ha.
  { intros ([[_ Hlen] _] & _). vm_compute in Hlen. by apply Hlen. }
  exact (buildPlaneGeometry_not_allocated host
           (Some (with_xSegments (Some (ofZ 100000000)) emptyCfg)) 100000000 Hn Ha).
Qed.

(** C8, amended.  Whatever the sizes, the center and the segment counts of
    the configuration are (negative, zero, fractional or absent, or no
    configuration at all): when the floored segment count [n] is finite and
    the typed array constructors create the four arrays of the grid (the
    positions and the normals of 3 (n + 1)^2 elements, the texture
    coordinates of 2 (n + 1)^2 elements and the 6 n^2 indices: each length
    valid, each data block granted by the host), the call throws nothing and
    returns a complete geometry record of primitive type "triangles". *)
Theorem returns_when_arrays_created host arg n :
  planeSegments (cfg_xSegments (default emptyCfg arg)) = Int n →
  creates (host 0%nat) 4 ((n + 1) * (n + 1) * 3) →
  creates (host 1%nat) 4 ((n + 1) * (n + 1) * 3) →
  creates (host 2%nat) 4 ((n + 1) * (n + 1) * 2) →
  creates (host 3%nat) (elementSize (indexType n)) (n * n * 6) →
  ∃ g, outcome (buildPlaneGeometry host arg) = Return g ∧
       primitiveType g = "triangles"%string.
Proof.
  intros Hn H0 H1 H2 H3.
  rewrite (buildPlaneGeometry_allocated host arg n) by done.
  by eexists.
Qed.

Lemma returns_when_arrays_created_witness :
  ∃ g, outcome (buildPlaneGeometry smallHost (Some oddCfg)) = Return g ∧
       primitiveType g = "triangles"%string.
Proof.
  apply (returns_when_arrays_created smallHost (Some oddCfg) 2); vm_compute;
    repeat split; congruence.
Defined.

(** C9.  A size of zero, of either sign, is treated as absent: the call
    writes, returns or throws exactly what it does without that property,
    and it writes no diagnostic line for the zero. *)
Theorem zero_size_defaults host cfg s :
  (buildPlaneGeometry host (Some (with_xSize (Some (S754_zero s)) cfg)) =
     buildPlaneGeometry host (Some (with_xSize None cfg)) ∧
   "negative xSize not allowed - will invert"%string ∉
     console (buildPlaneGeometry host (Some (with_xSize (Some (S754_zero s)) cfg)))) ∧
  (buildPlaneGeometry host (Some (with_zSize (Some (S754_zero s)) cfg)) =
     buildPlaneGeometry host (Some (with_zSize None cfg)) ∧
   "negative zSize not allowed - will invert"%string ∉
     console (buildPlaneGeometry host (Some (with_zSize (Some (S754_zero s)) cfg)))).
Proof.
  split; (split; [done|]).
  all: rewrite console_diagnostics; unfold diagnostics.
  all: cbn [default from_option id with_xSize with_zSize
            cfg_xSize cfg_zSize cfg_xSegments].
  all: change (isNegative (Some (S754_zero s))) with false.
  all: repeat destruct (isNegative _).
  all: not_among_lines.
Qed.

(** C10.  The test guarding the "negative zSegments" line reads the value
    taken from [cfg.xSegments].  A negative [cfg.zSegments], with
    [cfg.xSegments] absent or not negative, writes neither segment
    diagnostic and changes nothing: the call does what it does without
    [cfg.zSegments].  A negative [cfg.xSegments] writes the xSegments line
    and the zSegments line. *)
Theorem segment_diagnostics host cfg v :
  (v <? ofZ 0)%num = true →
  ((cfg_xSegments cfg = None ∨
    ∃ x, cfg_xSegments cfg = Some x ∧ (x <? ofZ 0)%num = false) →
   let run := buildPlaneGeometry host (Some (with_zSegments (Some v) cfg)) in
   run = buildPlaneGeometry host (Some (with_zSegments None cfg)) ∧
   ("negative xSegments not allowed - will invert"%string ∉ console run) ∧
   ("negative zSegments not allowed - will invert"%string ∉ console run)) ∧
  (let run := buildPlaneGeometry host (Some (with_xSegments (Some v) cfg)) in
   "negative xSegments not allowed - will invert"%string ∈ console run ∧
   "negative zSegments not allowed - will invert"%string ∈ console run).
Proof.
  intros Hv. split.
  - intros Hx%isNegative_absent_or_nonnegative. cbv zeta.
    split; [by destruct cfg|].
    rewrite console_diagnostics. unfold diagnostics.
    cbn [default from_option id with_zSegments cfg_xSize cfg_zSize cfg_xSegments].
    rewrite Hx.
    split; repeat destruct (isNegative _); not_among_lines.
  - cbv zeta. rewrite console_diagnostics. unfold diagnostics.
    cbn [default from_option id with_xSegments cfg_xSize cfg_zSize cfg_xSegments].
    rewrite (isNegative_negative v Hv).
    rewrite !elem_of_app, !elem_of_cons. auto 10.
Qed.

Lemma segment_diagnostics_witness :
  ((cfg_xSegments emptyCfg = None ∨
    ∃ x, cfg_xSegments emptyCfg = Some x ∧ (x <? ofZ 0)%num = false) →
   let run := buildPlaneGeometry smallHost (Some (with_zSegments (Some (ofZ (-3))) emptyCfg)) in
   run = buildPlaneGeometry smallHost (Some (with_zSegments None emptyCfg)) ∧
   ("negative xSegments not allowed - will invert"%string ∉ console run) ∧
   ("negative zSegments not allowed - will invert"%string ∉ console run)) ∧
  (let run := buildPlaneGeometry smallHost (Some (with_xSegments (Some (ofZ (-3))) emptyCfg)) in
   "negative xSegments not allowed - will invert"%string ∈ console run ∧
   "negative zSegments not allowed - will invert"%string ∈ console run).
Proof. apply (segment_diagnostics smallHost emptyCfg (ofZ (-3))). reflexivity. Defined.

(** * Further properties *)

(** X1.  Called without an argument, or with [{}], buildPlaneGeometry
    writes nothing to the console and returns the unit plane: the 4 vertices
    (-0.5, 0, 0.5), (0.5, 0, 0.5), (-0.5, 0, -0.5), (0.5, 0, -0.5), the
    texture coordinates (0, 1), (1, 1), (0, 0), (1, 0) and the triangles
    (1, 2, 0) and (1, 3, 2), indices in 16 bits.  It does so on every host
    that grants the four arrays, of 48, 48, 32 and 12 bytes. *)
Theorem default_is_unit_plane :
  (buildPlaneGeometry smallHost None = ([], Return unitPlane) ∧
   buildPlaneGeometry smallHost (Some emptyCfg) = ([], Return unitPlane)) ∧
  (∀ host : Host,
     host 0%nat 48 = true → host 1%nat 48 = true →
     host 2%nat 32 = true → host 3%nat 12 = true →
     buildPlaneGeometry host None = ([], Return unitPlane) ∧
     buildPlaneGeometry host (Some emptyCfg) = ([], Return unitPlane)).
Proof.
  split; [split; vm_compute; reflexivity|].
  intros host H0 H1 H2 H3.
  assert (allocated host 1) as Ha.
  { unfold allocated, creates.
    change (elementSize (indexType 1)) with 2.
    change (4 * ((1 + 1) * (1 + 1) * 3)) with 48.
    change (4 * ((1 + 1) * (1 + 1) * 2)) with 32.
    change (2 * (1 * 1 * 6)) with 12.
    repeat split; (done || (vm_compute; congruence)). }
  split.
  - by rewrite (buildPlaneGeometry_allocated host None 1).
  - by rewrite (buildPlaneGeometry_allocated host (Some emptyCfg) 1).
Qed.

(** X2.  The indices are returned in a [Uint32Array] when the grid has more
    than 65535 vertices and in a [Uint16Array] otherwise; the segment count
    [n] of both axes is at least 1. *)
Theorem index_width host arg g :
  outcome (buildPlaneGeometry host arg) = Return g →
  ∃ n, planeSegments (cfg_xSegments (default emptyCfg arg)) = Int n ∧
       1 ≤ n ∧
       elemType (indices g) =
         if (n + 1) * (n + 1) >? 65535 then Uint32 else Uint16.
Proof.
  intros (n & Hn & Hge & _ & ->)%buildPlaneGeometry_returns.
  by exists n.
Qed.

Lemma index_width_witness :
  ∃ n, planeSegments (cfg_xSegments (default emptyCfg None)) = Int n ∧
       1 ≤ n ∧
       elemType (indices unitPlane) =
         if (n + 1) * (n + 1) >? 65535 then Uint32 else Uint16.
Proof. apply (index_width smallHost None unitPlane). vm_compute. reflexivity. Defined.

(** X3.  In every returned geometry the vertex in column [ix] of row [iz]
    lies at [(x + centerX, centerY, -z + centerZ)] with
    [x = ix * (xSize / n) - xSize / 2] and [z = iz * (zSize / n) - zSize / 2],
    for the sanitised sizes and the segment count [n] of both axes, each
    coordinate stored in single precision. *)
Theorem position_formula host arg g :
  outcome (buildPlaneGeometry host arg) = Return g →
  ∃ n, planeSegments (cfg_xSegments (default emptyCfg arg)) = Int n ∧
       let cfg := default emptyCfg arg in
       let xSize := sanitizedSize (cfg_xSize cfg) in
       let zSize := sanitizedSize (cfg_zSize cfg) in
       let center := center_component (cfg_center cfg) in
       ∀ ix iz, 0 ≤ ix ≤ n → 0 ≤ iz ≤ n →
         let x := (ofZ ix * (xSize / ofZ n) - xSize / ofZ 2)%num in
         let z := (ofZ iz * (zSize / ofZ n) - zSize / ofZ 2)%num in
         take 3 (drop (3 * Z.to_nat (iz * (n + 1) + ix)) (positions g)) =
           [fround (x + center 0%nat)%num; fround (center 1%nat);
            fround (- z + center 2%nat)%num].
Proof.
  intros (n & Hn & Hge & _ & ->)%buildPlaneGeometry_returns.
  exists n. split; [done|]. cbv zeta. intros ix iz Hix Hiz.
  unfold planeGeometry; cbn [positions].
  rewrite (take_drop_chunks 3) by (done || unfold vertexCount; nia).
  unfold positionAt, row, column.
  by destruct (div_mod_row (n + 1) iz ix) as [-> ->]; [lia|].
Qed.

Lemma position_formula_witness :
  ∃ n, planeSegments (cfg_xSegments (default emptyCfg None)) = Int n ∧
       let cfg := default emptyCfg None in
       let xSize := sanitizedSize (cfg_xSize cfg) in
       let zSize := sanitizedSize (cfg_zSize cfg) in
       let center := center_component (cfg_center cfg) in
       ∀ ix iz, 0 ≤ ix ≤ n → 0 ≤ iz ≤ n →
         let x := (ofZ ix * (xSize / ofZ n) - xSize / ofZ 2)%num in
         let z := (ofZ iz * (zSize / ofZ n) - zSize / ofZ 2)%num in
         take 3 (drop (3 * Z.to_nat (iz * (n + 1) + ix)) (positions unitPlane)) =
           [fround (x + center 0%nat)%num; fround (center 1%nat);
            fround (- z + center 2%nat)%num].
Proof. apply (position_formula smallHost None unitPlane). vm_compute. reflexivity. Defined.

(** X4.  When the floored segment count [n] is finite and the positions or
    the indices of the grid have no valid typed array length, the call
    throws a [RangeError] instead of returning a geometry, whatever the
    host. *)
Theorem throws_when_not_allocatable host arg n :
  planeSegments (cfg_xSegments (default emptyCfg arg)) = Int n →
  ¬ (validLength 4 ((n + 1) * (n + 1) * 3) ∧
     validLength (elementSize (indexType n)) (n * n * 6)) →
  outcome (buildPlaneGeometry host arg) = Throw RangeError.
Proof.
  intros Hn Ha. rewrite (buildPlaneGeometry_not_allocated host arg n); [done..|].
  intros ([H0 _] & _ & _ & [H3 _]). by apply Ha.
Qed.

Lemma throws_when_not_allocatable_witness :
  outcome (buildPlaneGeometry smallHost (Some (segmentsCfg 100000000 100000000))) =
    Throw RangeError.
Proof.
  refine (throws_when_not_allocatable smallHost
            (Some (segmentsCfg 100000000 100000000)) 100000000 _ _).
  - vm_compute. reflexivity.
  - intros [[_ H] _]. vm_compute in H. apply H. reflexivity.
Defined.

(** X5.  When the floored segment count [n] is finite and the host refuses
    the data block of one of the four arrays (the positions, the normals,
    the texture coordinates or the indices), the call throws a [RangeError]
    instead of returning a geometry; the diagnostic lines are written
    before. *)
Theorem throws_when_host_refuses host arg n :
  planeSegments (cfg_xSegments (default emptyCfg arg)) = Int n →
  host 0%nat (4 * ((n + 1) * (n + 1) * 3)) = false ∨
  host 1%nat (4 * ((n + 1) * (n + 1) * 3)) = false ∨
  host 2%nat (4 * ((n + 1) * (n + 1) * 2)) = false ∨
  host 3%nat (elementSize (indexType n) * (n * n * 6)) = false →
  buildPlaneGeometry host arg =
    (diagnostics (default emptyCfg arg), Throw RangeError).
Proof.
  intros Hn Hrefused. apply (buildPlaneGeometry_not_allocated host arg n Hn).
  intros ([_ H0] & [_ H1] & [_ H2] & [_ H3]).
  destruct Hrefused as [H|[H|[H|H]]]; congruence.
Qed.

Lemma throws_when_host_refuses_witness :
  buildPlaneGeometry (hostWithRoom 256) (Some (with_xSize (Some (ofZ (-2))) (segmentsCfg 4 4))) =
    (["negative xSize not allowed - will invert"%string], Throw RangeError).
Proof.
  refine (throws_when_host_refuses (hostWithRoom 256)
            (Some (with_xSize (Some (ofZ (-2))) (segmentsCfg 4 4))) 4 _ _).
  - vm_compute. reflexivity.
  - left. vm_compute. reflexivity.
Defined.

(** X6.  An infinite [xSegments], of either sign, makes the call throw a
    [RangeError] on every host and whatever the other properties are: the
    floored segment count is infinite, and so is the length asked of the
    first typed array. *)
Theorem infinite_segments_throw host cfg s :
  outcome (buildPlaneGeometry host
             (Some (with_xSegments (Some (S754_infinity s)) cfg))) =
    Throw RangeError.
Proof.
  rewrite buildPlaneGeometry_run. unfold outcome.
  cbn [snd default from_option id with_xSegments cfg_xSegments].
  by destruct s.
Qed.

(** X7.  A negative [xSegments] is inverted, not rejected: the call returns
    (or throws) exactly what it does for the absolute value of that segment
    count. *)
Theorem negative_segments_inverted host cfg x :
  valid x → (x <? ofZ 0)%num = true →
  outcome (buildPlaneGeometry host (Some (with_xSegments (Some x) cfg))) =
    outcome (buildPlaneGeometry host (Some (with_xSegments (Some (abs x)) cfg))).
Proof.
  intros Hv Hx. apply outcome_with_xSegments. by apply planeSegments_negative.
Qed.

Lemma negative_segments_inverted_witness :
  outcome (buildPlaneGeometry smallHost (Some (with_xSegments (Some (ofZ (-3))) emptyCfg))) =
    outcome (buildPlaneGeometry smallHost (Some (with_xSegments (Some (ofZ 3)) emptyCfg))).
Proof. apply (negative_segments_inverted smallHost emptyCfg (ofZ (-3))); reflexivity. Defined.

(** X8.  An [xSegments] of magnitude below 1 (a fraction such as 0.25 or
    -0.5, or zero) gives the grid of one segment per axis: the call returns
    (or throws) exactly what it does without [xSegments]. *)
Theorem small_segments_clamped host cfg x :
  valid x → (abs x <? ofZ 1)%num = true →
  outcome (buildPlaneGeometry host (Some (with_xSegments (Some x) cfg))) =
    outcome (buildPlaneGeometry host (Some (with_xSegments None cfg))).
Proof.
  intros Hv Hx. apply outcome_with_xSegments. by apply planeSegments_below_1.
Qed.

Lemma small_segments_clamped_witness :
  outcome (buildPlaneGeometry smallHost
             (Some (with_xSegments (Some (ofZ (-1) / ofZ 4)%num) emptyCfg))) =
    outcome (buildPlaneGeometry smallHost (Some (with_xSegments None emptyCfg))).
Proof.
  apply (small_segments_clamped smallHost emptyCfg (ofZ (-1) / ofZ 4)%num); reflexivity.
Defined.

(** X9.  With an integer [xSegments = k], [k] at least 1, a returned
    geometry is the grid of [k] segments on both axes: it has
    [(k + 1) * (k + 1)] vertices and [2 * k * k] triangles, whatever
    [zSegments] is. *)
Theorem integer_segments_counts host cfg k g :
  1 ≤ k < 2 ^ 53 →
  outcome (buildPlaneGeometry host (Some (with_xSegments (Some (ofZ k)) cfg))) = Return g →
  planeSegments (Some (ofZ k)) = Int k ∧
  Z.of_nat (length (positions g)) = 3 * ((k + 1) * (k + 1)) ∧
  Z.of_nat (length (normals g)) = 3 * ((k + 1) * (k + 1)) ∧
  Z.of_nat (length (uv g)) = 2 * ((k + 1) * (k + 1)) ∧
  Z.of_nat (length (elems (indices g))) = 3 * (2 * k * k).
Proof.
  intros Hk (n & Hn & Hge & _ & ->)%buildPlaneGeometry_returns.
  cbn [default from_option id with_xSegments cfg_xSegments] in Hn.
  rewrite planeSegments_ofZ in Hn by done. injection Hn as <-.
  split; [by apply planeSegments_ofZ|].
  rewrite length_positions_g, length_normals_g, length_uv_g, length_indices_g by done.
  unfold vertexCount. repeat split; lia.
Qed.

Lemma integer_segments_counts_witness :
  planeSegments (Some (ofZ 3)) = Int 3 ∧
  Z.of_nat (length (positions (planeGeometry (segmentsCfg 3 7) 3))) = 3 * ((3 + 1) * (3 + 1)) ∧
  Z.of_nat (length (normals (planeGeometry (segmentsCfg 3 7) 3))) = 3 * ((3 + 1) * (3 + 1)) ∧
  Z.of_nat (length (uv (planeGeometry (segmentsCfg 3 7) 3))) = 2 * ((3 + 1) * (3 + 1)) ∧
  Z.of_nat (length (elems (indices (planeGeometry (segmentsCfg 3 7) 3)))) = 3 * (2 * 3 * 3).
Proof.
  apply (integer_segments_counts smallHost (with_zSegments (Some (ofZ 7)) emptyCfg) 3
           (planeGeometry (segmentsCfg 3 7) 3)).
  - lia.
  - vm_compute. reflexivity.
Defined.

(** X10.  No triangle of a returned geometry is degenerate: the three
    indices of every triangle are pairwise different. *)
Theorem triangles_not_degenerate host arg g (t : nat) :
  outcome (buildPlaneGeometry host arg) = Return g →
  (3 * t + 2 < length (elems (indices g)))%nat →
  ∃ i j k,
    elems (indices g) !! (3 * t)%nat = Some i ∧
    elems (indices g) !! (3 * t + 1)%nat = Some j ∧
    elems (indices g) !! (3 * t + 2)%nat = Some k ∧
    i ≠ j ∧ j ≠ k ∧ i ≠ k.
Proof.
  intros (n & Hn & Hge & Ha & ->)%buildPlaneGeometry_returns Ht.
  pose proof (allocated_row_below_bits host n Hge Ha) as Hrow.
  pose proof (length_indices_g (default emptyCfg arg) n Hge) as Hlen.
  unfold planeGeometry in *; cbn [indices elems] in *.
  assert (∃ q r : nat, t = (2 * q + r)%nat ∧ (r < 2)%nat) as (q & r & -> & Hr).
  { destruct (Nat.Even_or_Odd t) as [[q ->]|[q ->]];
      [exists q, 0%nat | exists q, 1%nat]; lia. }
  assert (0 ≤ Z.of_nat q < cellCount n n) as Hq by (unfold cellCount; lia).
  pose proof (lookup_chunks 6 (cellAt n (indexType n)) (cellCount n n) (Z.of_nat q))
    as Hlook.
  rewrite Nat2Z.id in Hlook.
  replace (3 * (2 * q + r))%nat with (6 * q + 3 * r)%nat by lia.
  replace (6 * q + 3 * r + 1)%nat with (6 * q + (3 * r + 1))%nat by lia.
  replace (6 * q + 3 * r + 2)%nat with (6 * q + (3 * r + 2))%nat by lia.
  rewrite !Hlook by (done || lia).
  unfold cellAt, cellTriangles, cornerA, cornerB, cornerC, cornerD.
  set (ix := Z.of_nat q mod n). set (iz := Z.of_nat q / n).
  destruct r as [|[|r]]; [| |lia]; simpl; do 3 eexists;
    (split; [done|]); (split; [done|]); (split; [done|]).
  - repeat split; [apply wrap_neq|apply not_eq_sym, wrap_neq|apply not_eq_sym, wrap_neq]; lia.
  - repeat split; [apply wrap_neq|apply not_eq_sym, wrap_neq|apply wrap_neq]; lia.
Qed.

Lemma triangles_not_degenerate_witness :
  ∃ i j k,
    elems (indices unitPlane) !! (3 * 1)%nat = Some i ∧
    elems (indices unitPlane) !! (3 * 1 + 1)%nat = Some j ∧
    elems (indices unitPlane) !! (3 * 1 + 2)%nat = Some k ∧
    i ≠ j ∧ j ≠ k ∧ i ≠ k.
Proof.
  apply (triangles_not_degenerate smallHost None unitPlane 1).
  - vm_compute. reflexivity.
  - simpl. lia.
Defined.

(** X11.  Every vertex of a returned geometry of at most 2^32 vertices is a
    corner of some triangle: each vertex index occurs among the indices. *)
Theorem every_vertex_used host arg g :
  outcome (buildPlaneGeometry host arg) = Return g →
  Z.of_nat (length (positions g)) / 3 ≤ 2 ^ 32 →
  ∀ v, 0 ≤ v < Z.of_nat (length (positions g)) / 3 → v ∈ elems (indices g).
Proof.
  intros (n & Hn & Hge & Ha & ->)%buildPlaneGeometry_returns.
  rewrite length_positions_g by done.
  replace (3 * vertexCount n n) with (vertexCount n n * 3) by lia.
  rewrite Z.div_mul by done. intros Hvc v Hv.
  set (ix := v mod (n + 1)). set (iz := v / (n + 1)).
  assert (0 ≤ ix < n + 1) as Hix by (apply Z.mod_pos_bound; lia).
  assert (0 ≤ iz < n + 1) as Hiz.
  { unfold vertexCount in Hv.
    split; [apply Z.div_pos; lia | apply Z.div_lt_upper_bound; lia]. }
  assert (v = ix + (n + 1) * iz) as Hsplit.
  { unfold ix, iz. pose proof (Z.div_mod v (n + 1)). lia. }
  rewrite Hsplit. clearbody ix iz. clear Hsplit Hv v.
  assert (∀ cx cz (j : nat) corner,
            0 ≤ cx < n → 0 ≤ cz < n →
            cellTriangles n cx cz !! j = Some corner →
            corner ∈ elems (indices (planeGeometry (default emptyCfg arg) n))) as Hcell.
  { intros cx cz j corner Hcx Hcz Hj.
    assert (j < 6)%nat as Hj6 by (by apply lookup_lt_Some in Hj).
    apply (list_elem_of_lookup_2 _ (6 * Z.to_nat (cz * n + cx) + j)%nat).
    rewrite indices_lookup, list_lookup_fmap, Hj by done. simpl. f_equal.
    apply wrap_exact; [done..|].
    pose proof (cellTriangles_bounds n Hge cx cz Hcx Hcz) as Hb.
    rewrite Forall_lookup in Hb. by apply (Hb j). }
  destruct (decide (ix < n)) as [Hx|Hx]; [|assert (ix = n) as -> by lia];
    (destruct (decide (iz < n)) as [Hz|Hz]; [|assert (iz = n) as -> by lia]).
  - apply (Hcell ix iz 2%nat); [lia..|]. reflexivity.
  - apply (Hcell ix (n - 1) 1%nat); [lia..|].
    unfold cellTriangles, cornerB. simpl. do 3 f_equal. lia.
  - apply (Hcell (n - 1) iz 0%nat); [lia..|].
    unfold cellTriangles, cornerD. simpl. do 2 f_equal. lia.
  - apply (Hcell (n - 1) (n - 1) 4%nat); [lia..|].
    unfold cellTriangles, cornerC. simpl. f_equal. f_equal; [lia|]. f_equal. lia.
Qed.

Lemma every_vertex_used_witness : 3 ∈ elems (indices unitPlane).
Proof.
  apply (every_vertex_used smallHost None unitPlane).
  - vm_compute. reflexivity.
  - vm_compute. congruence.
  - vm_compute. split; [congruence|reflexivity].
Defined.

(** X12.  The normals, the texture coordinates and the indices depend on
    [cfg.xSegments] only: two configurations with the same [xSegments], on
    the same host, both return or both throw, and what they return differs
    in the positions at most. *)
Theorem attributes_depend_on_segments host cfg cfg' :
  cfg_xSegments cfg = cfg_xSegments cfg' →
  (outcome (buildPlaneGeometry host (Some cfg)) = Throw RangeError ↔
   outcome (buildPlaneGeometry host (Some cfg')) = Throw RangeError) ∧
  ∀ g g',
    outcome (buildPlaneGeometry host (Some cfg)) = Return g →
    outcome (buildPlaneGeometry host (Some cfg')) = Return g' →
    normals g = normals g' ∧ uv g = uv g' ∧ indices g = indices g' ∧
    length (positions g) = length (positions g').
Proof.
  intros Hseg. split.
  - rewrite !buildPlaneGeometry_run. unfold outcome.
    cbn [snd default from_option id]. rewrite Hseg.
    destruct (planeSegments _) as [n| |]; [|done..].
    by destruct (decide (allocated host n)).
  - intros g g' (n & Hn & Hge & _ & ->)%buildPlaneGeometry_returns
      (n' & Hn' & _ & _ & ->)%buildPlaneGeometry_returns.
    cbn [default from_option id] in *. rewrite Hseg in Hn.
    assert (n' = n) as -> by congruence.
    unfold planeGeometry; cbn [positions normals uv indices].
    by rewrite !(length_chunks 3).
Qed.

Lemma attributes_depend_on_segments_witness :
  (outcome (buildPlaneGeometry smallHost (Some oddCfg)) = Throw RangeError ↔
   outcome (buildPlaneGeometry smallHost
              (Some (with_xSegments (cfg_xSegments oddCfg) emptyCfg))) = Throw RangeError) ∧
  ∀ g g',
    outcome (buildPlaneGeometry smallHost (Some oddCfg)) = Return g →
    outcome (buildPlaneGeometry smallHost
               (Some (with_xSegments (cfg_xSegments oddCfg) emptyCfg))) = Return g' →
    normals g = normals g' ∧ uv g = uv g' ∧ indices g = indices g' ∧
    length (positions g) = length (positions g').
Proof.
  apply (attributes_depend_on_segments smallHost oddCfg
           (with_xSegments (cfg_xSegments oddCfg) emptyCfg)).
  reflexivity.
Defined.

(** X13.  A [center] with fewer than three components is not completed by
    defaults: a missing component [center[i]] leaves coordinate [i] of every
    vertex of the returned geometry [NaN]. *)
Theorem missing_center_component_is_NaN host cfg c g (i : nat) :
  cfg_center cfg = Some c → (i < 3)%nat → c !! i = None →
  outcome (buildPlaneGeometry host (Some cfg)) = Return g →
  ∀ k : nat, (3 * k + i < length (positions g))%nat →
    positions g !! (3 * k + i)%nat = Some NaN.
Proof.
  intros Hc Hi Hmiss (n & Hn & Hge & _ & ->)%buildPlaneGeometry_returns k Hk.
  pose proof (length_positions_g (default emptyCfg (Some cfg)) n Hge) as Hlen.
  unfold planeGeometry in *; cbn [positions default from_option id] in *.
  rewrite <-(Nat2Z.id k) at 1.
  rewrite (lookup_chunks 3) by (done || lia).
  assert (center_component (cfg_center cfg) i = NaN) as Hnan
    by (by rewrite Hc; unfold center_component; rewrite Hmiss).
  unfold positionAt.
  destruct i as [|[|[|i]]]; [| | |lia]; simpl; rewrite Hnan; f_equal.
  - by destruct (_ - _)%num.
  - by destruct (- _)%num.
Qed.

Lemma missing_center_component_is_NaN_witness :
  positions (planeGeometry oddCfg 2) !! (3 * 4 + 2)%nat = Some NaN.
Proof.
  apply (missing_center_component_is_NaN smallHost oddCfg [ofZ 1; ofZ 2]
           (planeGeometry oddCfg 2) 2).
  - reflexivity.
  - lia.
  - reflexivity.
  - vm_compute. reflexivity.
  - vm_compute. lia.
Defined.
